(** * validate_model.py, the Tier-1 gatekeeper: a shallow embedding

    The script validates one model folder: it loads [metadata.yaml],
    checks the Tier-1 metadata contract, runs a framework specific smoke
    test and maps the outcome to a process exit status.

    The embedding follows [scripts/validate_model.py] function by function.
    Python values are an inductive type, dictionaries are finite maps, the
    file system is a tree, and the effects of the script (lines printed,
    calls into PyYAML, torch, tensorflow and onnx, [sys.exit], exceptions)
    are threaded through a small trace-and-outcome monad. *)

From Stdlib Require Import ZArith String Ascii List.
From stdpp Require Import base option list strings pretty gmap.

#[local] Set Warnings "-register-all".
#[local] Open Scope string_scope.
#[local] Open Scope list_scope.
#[local] Open Scope Z_scope.

(** ** Python values *)

(** The objects [yaml.safe_load] builds for the core YAML tags.  A mapping is
    kept on its [str] keys: the script only ever looks up [str] keys, and a
    Python [str] is equal to no key of another type. *)
Inductive py_value : Type :=
| PyNone
| PyBool (b : bool)
| PyInt (n : Z)
| PyFloat (bits : Z)
| PyStr (s : string)
| PyList (items : list py_value)
| PyDict (d : gmap string py_value).

(** Python types as far as the script meets them *)
Inductive py_type : Type := TNoneType | TBool | TInt | TFloat | TStr | TList | TDict.

(** [type(v)] *)
Definition type_of (v : py_value) : py_type :=
  match v with
  | PyNone => TNoneType
  | PyBool _ => TBool
  | PyInt _ => TInt
  | PyFloat _ => TFloat
  | PyStr _ => TStr
  | PyList _ => TList
  | PyDict _ => TDict
  end.

(** [t.__name__] *)
Definition py_type_name (t : py_type) : string :=
  match t with
  | TNoneType => "NoneType"
  | TBool => "bool"
  | TInt => "int"
  | TFloat => "float"
  | TStr => "str"
  | TList => "list"
  | TDict => "dict"
  end.

(** [type(v).__name__] *)
Definition type_name (v : py_value) : string := py_type_name (type_of v).

(** [isinstance(v, t)]; [bool] is a subclass of [int]. *)
Definition isinstance (v : py_value) (t : py_type) : bool :=
  match type_of v, t with
  | TNoneType, TNoneType | TBool, TBool | TBool, TInt | TInt, TInt
  | TFloat, TFloat | TStr, TStr | TList, TList | TDict, TDict => true
  | _, _ => false
  end.

(** [v == s] for a [str] s: only an equal [str] compares equal. *)
Definition py_eq_str (v : py_value) (s : string) : bool :=
  match v with
  | PyStr t => bool_decide (t = s)
  | _ => false
  end.

Definition is_dict (v : py_value) : bool :=
  match v with PyDict _ => true | _ => false end.

(** [v in l] for a list [l] of [str] constants: membership by [==]. *)
Definition py_in_strs (v : py_value) (l : list string) : bool :=
  existsb (py_eq_str v) l.

(** ** Exceptions, outcomes and the trace monad *)

Inductive exn_class : Type :=
| TypeError
| AttributeError
| ValueError
| KeyError
| IsADirectoryError
| FileNotFoundError
| YAMLError
| ImportError
| LibraryError.   (* any other Exception raised inside torch, tensorflow or onnx *)

Record exn : Type := Exn { exn_type : exn_class; exn_msg : string }.

(** Absolute paths as lists of components; [[]] is the root. *)
Definition path : Type := list string.

(** What the script does to the outside world, in order. *)
Inductive event : Type :=
| Stdout (text : string)                                   (* print(text) *)
| YamlSafeLoad (content : string)                          (* yaml.safe_load(f) *)
| TorchLoad (f : path) (map_location : string) (weights_only : bool)
| TfSavedModelLoad (dir : string)                          (* tf.saved_model.load(dir) *)
| OnnxLoad (f : string)                                    (* onnx.load(f) *)
| OnnxCheckModel (f : string).                             (* onnx.checker.check_model(model of f) *)

(** A computation ends by returning, by [sys.exit(code)] (SystemExit, which
    [except Exception] does not catch) or by raising an Exception. *)
Inductive outcome (A : Type) : Type :=
| Ret (a : A)
| Exit (code : Z)
| Raise (e : exn).
Arguments Ret {A} a.
Arguments Exit {A} code.
Arguments Raise {A} e.

Definition M (A : Type) : Type := (list event * outcome A)%type.

Definition M_bind {A B : Type} (f : A → M B) (m : M A) : M B :=
  match m with
  | (t, Ret a) => let '(t', o) := f a in (t ++ t', o)
  | (t, Exit c) => (t, Exit c)
  | (t, Raise e) => (t, Raise e)
  end.

#[export] Instance M_ret_inst : MRet M := λ A a, ([], Ret a).
#[export] Instance M_bind_inst : MBind M := @M_bind.

Definition print (text : string) : M unit := ([Stdout text], Ret ()).
Definition sys_exit {A : Type} (code : Z) : M A := ([], Exit code).
Definition raise {A : Type} (c : exn_class) (msg : string) : M A :=
  ([], Raise (Exn c msg)).

(** [try: body / except <classes>: handler] *)
Definition try_except {A : Type} (body : M A) (catches : exn → bool)
    (handler : exn → M A) : M A :=
  match body with
  | (t, Raise e) =>
      if catches e then let '(t', o) := handler e in (t ++ t', o)
      else (t, Raise e)
  | r => r
  end.

Definition except_Exception (e : exn) : bool := true.
Definition except_YAMLError (e : exn) : bool :=
  match exn_type e with
  | YAMLError => true
  | _ => false
  end.

(** [for x in l: body x] *)
Fixpoint for_each {A : Type} (l : list A) (body : A → M unit) : M unit :=
  match l with
  | [] => mret ()
  | x :: l' => body x ;; for_each l' body
  end.

(** A [for] loop that updates one local variable. *)
Fixpoint for_acc {A S : Type} (l : list A) (body : S → A → M S) (s : S) : M S :=
  match l with
  | [] => mret s
  | x :: l' => s' ← body s x; for_acc l' body s'
  end.

(** ** Operations of the Python object model the script relies on *)

(** [key in obj] for a [str] key.  CPython's messages are those of 3.12. *)
Definition py_contains (obj : py_value) (key : string) : M bool :=
  match obj with
  | PyDict d => mret (bool_decide (is_Some (d !! key)))
  | PyList items => mret (existsb (λ v, py_eq_str v key) items)
  | PyStr s =>
      mret (match String.index 0 key s with Some _ => true | None => false end)
  | v => raise TypeError
           ("argument of type '" +:+ type_name v +:+ "' is not iterable")
  end.

(** [obj[key]] for a [str] key. *)
Definition py_getitem (obj : py_value) (key : string) : M py_value :=
  match obj with
  | PyDict d =>
      match d !! key with
      | Some v => mret v
      | None => raise KeyError ("'" +:+ key +:+ "'")
      end
  | PyList _ => raise TypeError "list indices must be integers or slices, not str"
  | PyStr _ => raise TypeError "string indices must be integers, not 'str'"
  | v => raise TypeError ("'" +:+ type_name v +:+ "' object is not subscriptable")
  end.

(** [obj.get(key, dflt)]; [obj.get(key)] is [py_get obj key PyNone]. *)
Definition py_get (obj : py_value) (key : string) (dflt : py_value) : M py_value :=
  match obj with
  | PyDict d => mret (default dflt (d !! key))
  | v => raise AttributeError
           ("'" +:+ type_name v +:+ "' object has no attribute 'get'")
  end.

(** [str(l)] for a list of [str] constants without quotes or escapes. *)
Definition str_of_strs (l : list string) : string :=
  "[" +:+ String.concat ", " (map (λ s, "'" +:+ s +:+ "'") l) +:+ "]".

(** ** The file system *)

Inductive node : Type :=
| File (content : string)
| Dir (entries : list (string * node)).   (* in the order the OS lists them *)

Fixpoint entry (name : string) (entries : list (string * node)) : option node :=
  match entries with
  | [] => None
  | (n, x) :: rest => if bool_decide (n = name) then Some x else entry name rest
  end.

Fixpoint fs_lookup (n : node) (p : path) : option node :=
  match p with
  | [] => Some n
  | c :: p' =>
      match n with
      | Dir entries =>
          match entry c entries with
          | Some n' => fs_lookup n' p'
          | None => None
          end
      | File _ => None
      end
  end.

(** [str(p)] and [p.name] of a POSIX path *)
Definition path_str (p : path) : string := "/" +:+ String.concat "/" p.
Definition path_name (p : path) : string := List.last p "".

(** [fnmatch] of a name against a pattern built from literal characters and
    [*], which is all the patterns of the script use.  [*] stands for any
    run of characters, the empty one and a leading dot included. *)
Fixpoint fnmatch (pattern name : string) : bool :=
  match pattern with
  | EmptyString => match name with EmptyString => true | _ => false end
  | String c pattern' =>
      if Ascii.eqb c "*" then
        (fix star (s : string) : bool :=
           fnmatch pattern' s
           || match s with EmptyString => false | String _ s' => star s' end) name
      else
        match name with
        | EmptyString => false
        | String c' name' => Ascii.eqb c c' && fnmatch pattern' name'
        end
  end.

(** A pattern without [*] *)
Fixpoint literal (pattern : string) : bool :=
  match pattern with
  | EmptyString => true
  | String c pattern' => negb (Ascii.eqb c "*") && literal pattern'
  end.

(** ** The world the script runs in *)

(** The libraries the smoke test imports.  Each call either returns or
    raises an Exception. *)
Record TorchLib : Type := {
  torch_load : path → string → bool → option exn;
}.
Record TensorflowLib : Type := {
  tf_saved_model_load : string → option exn;
}.
Record OnnxLib : Type := {
  onnx_load : string → option exn;          (* None: a model was built *)
  onnx_check_model : string → option exn;    (* the checker on the model of that file *)
}.

Record World : Type := {
  (** [Path(arg).resolve()] *)
  resolve : string → path;
  (** the directory tree under [/] *)
  fs_root : node;
  (** PyYAML on the text of a file: a YAMLError message or the object *)
  yaml_safe_load : string → string + py_value;
  (** [sys.get_int_max_str_digits()]: 4300 by default since CPython 3.11,
      0 when there is no limit *)
  int_max_str_digits : N;
  (** [str()] of floats and containers: the text, or the exception raised
      (a container may hold an int that is too long to print) *)
  py_str_other : py_value → exn + string;
  (** [import torch] and the like: the module, or the exception raised *)
  torch : exn + TorchLib;
  tensorflow : exn + TensorflowLib;
  onnx : exn + OnnxLib;
}.

(** An int with more decimal digits than the limit allows *)
Definition int_exceeds_limit (limit : N) (n : Z) : bool :=
  negb (limit =? 0)%N && (10 ^ Z.of_N limit <=? Z.abs n).

(** What [str(v)] gives: the text, or the exception it raises.  Converting
    an int of more digits than [sys.get_int_max_str_digits()] raises
    ValueError. *)
Definition py_str_result (w : World) (v : py_value) : exn + string :=
  match v with
  | PyNone => inr "None"
  | PyBool true => inr "True"
  | PyBool false => inr "False"
  | PyInt n =>
      if int_exceeds_limit (int_max_str_digits w) n then
        inl (Exn ValueError
               ("Exceeds the limit (" +:+ pretty (int_max_str_digits w)
                +:+ " digits) for integer string conversion; "
                +:+ "use sys.set_int_max_str_digits() to increase the limit"))
      else inr (pretty n)
  | PyStr s => inr s
  | v => py_str_other w v
  end.

(** [str(v)], as f-strings apply it *)
Definition py_str (w : World) (v : py_value) : M string :=
  match py_str_result w v with
  | inl e => ([], Raise e)
  | inr text => mret text
  end.

Definition path_exists (w : World) (p : path) : bool :=
  match fs_lookup (fs_root w) p with Some _ => true | None => false end.

Definition path_is_dir (w : World) (p : path) : bool :=
  match fs_lookup (fs_root w) p with Some (Dir _) => true | _ => false end.

(** [list(p.glob(pattern))] for a pattern without [/]: the children of [p]
    whose name matches, hidden ones included. *)
Definition path_glob (w : World) (p : path) (pattern : string) : list path :=
  match fs_lookup (fs_root w) p with
  | Some (Dir entries) =>
      map (λ e, p ++ [e.1]) (filter (λ e, fnmatch pattern e.1 = true) entries)
  | _ => []
  end.

(** [open(p, "r")] followed by reading the whole text *)
Definition open_read (w : World) (p : path) : M string :=
  match fs_lookup (fs_root w) p with
  | Some (File content) => mret content
  | Some (Dir _) => raise IsADirectoryError ("[Errno 21] Is a directory: '" +:+ path_str p +:+ "'")
  | None => raise FileNotFoundError ("[Errno 2] No such file or directory: '" +:+ path_str p +:+ "'")
  end.

Definition yaml_load (w : World) (content : string) : M py_value :=
  ([YamlSafeLoad content],
   match yaml_safe_load w content with
   | inl msg => Raise (Exn YAMLError msg)
   | inr v => Ret v
   end).

(** ** The script *)

(** Tier-1 required fields (blocking), in the order the dictionary lists them *)
Definition TIER_1_FIELDS : list (string * py_type) :=
  [("model_id", TStr); ("git_hash", TStr); ("framework", TStr);
   ("min_app_version", TStr); ("required_hardware", TStr)].

Definition VALID_FRAMEWORKS : list string := ["pytorch"; "tensorflow"; "onnx"].
Definition VALID_HARDWARE : list string := ["mps"; "cpu"; "cuda"].

Definition nl : string := String "010"%char "".

(** Load and parse metadata.yaml from the model folder. *)
Definition load_metadata (w : World) (model_path : path) : M py_value :=
  let metadata_file := model_path ++ ["metadata.yaml"] in
  (if negb (path_exists w metadata_file) then
     print ("âŒ FATAL: metadata.yaml not found in " +:+ path_str model_path) ;;
     sys_exit 1
   else mret ()) ;;
  f ← open_read w metadata_file;
  try_except (yaml_load w f) except_YAMLError
    (λ e, print ("âŒ FATAL: Invalid YAML in metadata.yaml: " +:+ exn_msg e) ;;
          sys_exit 1).

(** The messages of the Tier-1 checks *)
Definition msg_missing (field : string) : string :=
  "  - Missing required field: '" +:+ field +:+ "'".
Definition msg_type (field : string) (expected_type : py_type) : string :=
  "  - Field '" +:+ field +:+ "' must be of type " +:+ py_type_name expected_type.
Definition msg_model_id (shown folder : string) : string :=
  "  - 'model_id' (" +:+ shown +:+ ") must match folder name (" +:+ folder +:+ ")".
Definition msg_framework : string :=
  "  - 'framework' must be one of: " +:+ str_of_strs VALID_FRAMEWORKS.
Definition msg_hardware : string :=
  "  - 'required_hardware' must be one of: " +:+ str_of_strs VALID_HARDWARE.

(** The body of one turn of the loop over [TIER_1_FIELDS.items()] *)
Definition check_field (metadata : py_value) (errors : list string)
    (item : string * py_type) : M (list string) :=
  let '(field, expected_type) := item in
  present ← py_contains metadata field;
  if negb present then
    mret (errors ++ [msg_missing field])
  else
    v ← py_getitem metadata field;
    if negb (isinstance v expected_type) then
      mret (errors ++ [msg_type field expected_type])
    else mret errors.

(** Lines 54 to 72 of validate_tier_1: the list [errors] as it stands when
    the checks are over. *)
Definition tier_1_errors (w : World) (metadata : py_value)
    (model_folder_name : string) : M (list string) :=
  errors ← for_acc TIER_1_FIELDS (check_field metadata) [];
  (* Validate model_id matches folder name *)
  model_id ← py_get metadata "model_id" PyNone;
  errors ← (if negb (py_eq_str model_id model_folder_name) then
              shown ← py_get metadata "model_id" PyNone;
              text ← py_str w shown;
              mret (errors ++ [msg_model_id text model_folder_name])
            else mret errors);
  (* Validate framework *)
  framework ← py_get metadata "framework" PyNone;
  errors ← (if negb (py_in_strs framework VALID_FRAMEWORKS) then
              mret (errors ++ [msg_framework])
            else mret errors);
  (* Validate hardware *)
  hardware ← py_get metadata "required_hardware" PyNone;
  errors ← (if negb (py_in_strs hardware VALID_HARDWARE) then
              mret (errors ++ [msg_hardware])
            else mret errors);
  mret errors.

(** Validate Tier-1 (Blocking) fields. *)
Definition validate_tier_1 (w : World) (metadata : py_value)
    (model_folder_name : string) : M bool :=
  print "ğŸ” Validating Tier-1 (Blocking) fields..." ;;
  errors ← tier_1_errors w metadata model_folder_name;
  match errors with
  | _ :: _ =>
      print "âŒ Tier-1 Validation FAILED:" ;;
      for_each errors print ;;
      mret false
  | [] =>
      print "âœ… Tier-1 Validation PASSED" ;;
      mret true
  end.

(** The calls into the frameworks *)
Definition import_module {L : Type} (m : exn + L) : M L :=
  match m with
  | inl e => ([], Raise e)
  | inr lib => mret lib
  end.

Definition call (ev : event) (r : option exn) : M unit :=
  ([ev], match r with Some e => Raise e | None => Ret () end).

Definition smoke_failed (e : exn) : M bool :=
  print ("âŒ Smoke Test FAILED: " +:+ exn_msg e) ;;
  mret false.

(** The bodies of the two loops over model files *)
Definition load_weights (lib : TorchLib) (mf : path) : M unit :=
  print ("  Loading " +:+ path_name mf +:+ "...") ;;
  (* Just load to verify integrity, don't keep in memory *)
  call (TorchLoad mf "cpu" true) (torch_load lib mf "cpu" true).

Definition check_onnx_file (lib : OnnxLib) (mf : path) : M unit :=
  print ("  Checking " +:+ path_name mf +:+ "...") ;;
  call (OnnxLoad (path_str mf)) (onnx_load lib (path_str mf)) ;;
  call (OnnxCheckModel (path_str mf)) (onnx_check_model lib (path_str mf)).

(** The three probes of smoke_test_model, one per [if]/[elif] arm *)
Definition smoke_pytorch (w : World) (model_path : path) : M bool :=
  let model_files := path_glob w model_path "*.pt" ++ path_glob w model_path "*.pth" in
  match model_files with
  | [] =>
      print "âŒ No PyTorch model files (.pt/.pth) found" ;;
      mret false
  | _ :: _ =>
      try_except
        (lib ← import_module (torch w);
         for_each model_files (load_weights lib) ;;
         print "âœ… Smoke Test PASSED (PyTorch)" ;;
         mret true)
        except_Exception smoke_failed
  end.

Definition smoke_tensorflow (w : World) (model_path : path) : M bool :=
  try_except
    (lib ← import_module (tensorflow w);
     let saved_model_dir := model_path ++ ["saved_model"] in
     if path_exists w saved_model_dir then
       call (TfSavedModelLoad (path_str saved_model_dir))
            (tf_saved_model_load lib (path_str saved_model_dir)) ;;
       print "âœ… Smoke Test PASSED (TensorFlow)" ;;
       mret true
     else
       print "âŒ No saved_model directory found" ;;
       mret false)
    except_Exception smoke_failed.

Definition smoke_onnx (w : World) (model_path : path) : M bool :=
  try_except
    (lib ← import_module (onnx w);
     let onnx_files := path_glob w model_path "*.onnx" in
     match onnx_files with
     | [] =>
         print "âŒ No ONNX model files (.onnx) found" ;;
         mret false
     | _ :: _ =>
         for_each onnx_files (check_onnx_file lib) ;;
         print "âœ… Smoke Test PASSED (ONNX)" ;;
         mret true
     end)
    except_Exception smoke_failed.

(** The last two lines of smoke_test_model *)
Definition smoke_unknown (w : World) (framework : py_value) : M bool :=
  text ← py_str w framework;
  print ("âš ï¸  Smoke test not implemented for framework: " +:+ text) ;;
  mret true.  (* Allow pass for unknown frameworks with warning *)

(** Lightweight Smoke Test: attempt to load model weights. *)
Definition smoke_test_model (w : World) (model_path : path)
    (framework : py_value) : M bool :=
  print "ğŸ”¥ Running Lightweight Smoke Test..." ;;
  (* Find model files based on framework *)
  if py_eq_str framework "pytorch" then smoke_pytorch w model_path
  else if py_eq_str framework "tensorflow" then smoke_tensorflow w model_path
  else if py_eq_str framework "onnx" then smoke_onnx w model_path
  else smoke_unknown w framework.

Definition bar : string := "â•â•â•â•â•â•â•â•â•â•â•â•â•â•â•â•â•â•â•â•â•â•â•â•â•â•â•â•â•â•â•â•â•â•â•â•â•â•â•â•â•â•â•â•â•â•â•â•â•â•â•â•â•â•â•â•â•â•â•".

Definition main (w : World) (argv : list string) : M unit :=
  if bool_decide (length argv ≠ 2%nat) then
    print "Usage: python scripts/validate_model.py <model_folder_path>" ;;
    sys_exit 1
  else
    let model_path := resolve w (default "" (argv !! 1%nat)) in
    (if negb (path_exists w model_path) then
       print ("âŒ FATAL: Model path does not exist: " +:+ path_str model_path) ;;
       sys_exit 1
     else mret ()) ;;
    (if negb (path_is_dir w model_path) then
       print ("âŒ FATAL: Model path is not a directory: " +:+ path_str model_path) ;;
       sys_exit 1
     else mret ()) ;;
    let model_folder_name := path_name model_path in
    print bar ;;
    print ("  VALIDATING: " +:+ model_folder_name) ;;
    print bar ;;
    (* Load metadata *)
    metadata ← load_metadata w model_path;
    (* Tier-1 Validation (Blocking) *)
    ok ← validate_tier_1 w metadata model_folder_name;
    (if negb ok then
       print (nl +:+ "ğŸš« PROMOTION BLOCKED: Tier-1 validation failed.") ;;
       sys_exit 1
     else mret ()) ;;
    (* Smoke Test (Corruption Check) *)
    framework ← py_get metadata "framework" (PyStr "");
    ok ← smoke_test_model w model_path framework;
    (if negb ok then
       print (nl +:+ "ğŸš« PROMOTION BLOCKED: Model artifact corruption detected.") ;;
       sys_exit 2
     else mret ()) ;;
    print (nl +:+ "âœ… ALL VALIDATIONS PASSED. Model is eligible for promotion.") ;;
    sys_exit 0.

(** The status the process ends with: the code given to [sys.exit], and 1
    when an exception reaches the top level and the interpreter prints a
    traceback. *)
Definition exit_status (o : outcome unit) : Z :=
  match o with
  | Exit code => code
  | Raise _ => 1
  | Ret _ => 0
  end.

(** [python scripts/validate_model.py ...]: the trace and the exit status *)
Definition run (w : World) (argv : list string) : list event * Z :=
  let '(t, o) := main w argv in (t, exit_status o).

(** ** The Tier-1 checks as the specification words them *)

(** Step 1, per required field: a missing-field error if absent, a
    type-mismatch error if present but not of the declared type. *)
Definition spec_field_errors (d : gmap string py_value)
    (item : string * py_type) : list string :=
  match d !! item.1 with
  | None => [msg_missing item.1]
  | Some v => if isinstance v item.2 then [] else [msg_type item.1 item.2]
  end.

(** The value of a field is exactly one of the recognised texts. *)
Definition one_of (d : gmap string py_value) (field : string)
    (domain : list string) : Prop :=
  ∃ s, d !! field = Some (PyStr s) ∧ s ∈ domain.

#[export] Instance one_of_dec d field domain : Decision (one_of d field domain).
Proof.
  unfold one_of. destruct (d !! field) as [v|] eqn:E.
  - destruct v as [| | | |s| |];
      try (right; intros (s' & H & _); discriminate H).
    destruct (decide (s ∈ domain)) as [Hin|Hout].
    + left. eauto.
    + right. intros (s' & H & Hs). injection H as <-. contradiction.
  - right. intros (s' & H & _). discriminate H.
Defined.

#[export] Instance field_is_dec (d : gmap string py_value) (field s : string) :
  Decision (d !! field = Some (PyStr s)).
Proof.
  destruct (d !! field) as [v|]; [|right; discriminate].
  destruct v as [| | | |t| |]; try (right; discriminate).
  destruct (decide (t = s)) as [->|Hne]; [left; reflexivity|].
  right. intros H. injection H as ->. contradiction.
Defined.

(** What [str()] makes of the declared model_id, None when it is absent *)
Definition shown_model_id (w : World) (d : gmap string py_value) : exn + string :=
  py_str_result w (default PyNone (d !! "model_id")).

(** Step 2: [model_id] must equal the base name of the folder; [shown] is
    the text the message gives for the declared value. *)
Definition spec_model_id_errors (shown : string) (d : gmap string py_value)
    (folder : string) : list string :=
  if decide (d !! "model_id" = Some (PyStr folder)) then []
  else [msg_model_id shown folder].

(** Steps 3 and 4: the two enumerated domains. *)
Definition spec_framework_errors (d : gmap string py_value) : list string :=
  if decide (one_of d "framework" VALID_FRAMEWORKS) then [] else [msg_framework].
Definition spec_hardware_errors (d : gmap string py_value) : list string :=
  if decide (one_of d "required_hardware" VALID_HARDWARE) then [] else [msg_hardware].

(** All checks, in the order of evaluation, none depending on another. *)
Definition spec_errors (shown : string) (d : gmap string py_value)
    (folder : string) : list string :=
  concat (map (spec_field_errors d) TIER_1_FIELDS)
  ++ spec_model_id_errors shown d folder
  ++ spec_framework_errors d
  ++ spec_hardware_errors d.

(** What validate_tier_1 prints around a given error list *)
Definition validation_report (errors : list string) : list event :=
  Stdout "ğŸ” Validating Tier-1 (Blocking) fields..." ::
  match errors with
  | [] => [Stdout "âœ… Tier-1 Validation PASSED"]
  | _ => Stdout "âŒ Tier-1 Validation FAILED:" :: map Stdout errors
  end.

(** What the pytorch probe does for the files it gets through: one line and
    one weights-only load on the CPU per file, in order. *)
Definition torch_attempts (files : list path) : list event :=
  flat_map (λ mf, [Stdout ("  Loading " +:+ path_name mf +:+ "...");
                   TorchLoad mf "cpu" true]) files.

(** The weight files the pytorch probe looks at *)
Definition pytorch_files (w : World) (model_path : path) : list path :=
  path_glob w model_path "*.pt" ++ path_glob w model_path "*.pth".

(** The line of the fallback arm of smoke_test_model, whatever the
    framework it names *)
Definition is_fallback_warning (ev : event) : bool :=
  match ev with
  | Stdout text =>
      String.prefix "âš ï¸  Smoke test not implemented for framework: " text
  | _ => false
  end.

(** A trace in which the fallback arm never spoke *)
Definition quiet (t : list event) : Prop :=
  Forall (λ ev, is_fallback_warning ev = false) t.

(** A computation that does not call [sys.exit] *)
Definition no_exit {A : Type} (m : M A) : Prop := ∀ code, m.2 ≠ Exit code.

Definition calm {A : Type} (m : M A) : Prop := quiet m.1 ∧ no_exit m.

(** The three lines main prints once the folder is accepted *)
Definition banner (model_folder_name : string) : list event :=
  [Stdout bar; Stdout ("  VALIDATING: " +:+ model_folder_name); Stdout bar].

(** The folder main works on *)
Definition model_path_of (w : World) (argv : list string) : path :=
  resolve w (default "" (argv !! 1%nat)).

(** Both components announce themselves with their first statement, so a
    trace tells whether they were entered. *)
Definition validation_began (t : list event) : Prop :=
  Stdout "ğŸ” Validating Tier-1 (Blocking) fields..." ∈ t.
Definition smoke_test_ran (t : list event) : Prop :=
  Stdout "ğŸ”¥ Running Lightweight Smoke Test..." ∈ t.


(** ** A sample world

    A small directory tree with the folders the scenarios of the
    specification talk about, and tables standing for the libraries on the
    texts and files of that tree. *)

Definition sample_metadata (model_id framework : string) : gmap string py_value :=
  {[ "model_id" := PyStr model_id; "git_hash" := PyStr "abc123";
     "framework" := PyStr framework; "min_app_version" := PyStr "1.0";
     "required_hardware" := PyStr "cpu" ]}.

Definition yaml_model_a : string :=
  "{model_id: model_a, git_hash: abc123, framework: onnx, min_app_version: '1.0', required_hardware: cpu}".
Definition yaml_model_b : string :=
  "{model_id: model_b, git_hash: abc123, framework: pytorch, min_app_version: '1.0', required_hardware: cpu}".
Definition yaml_model_c : string :=
  "{model_id: model_c, git_hash: abc123, framework: pytorch, min_app_version: '1.0', required_hardware: cpu}".
Definition yaml_sequence : string := "- a".
Definition yaml_broken : string := "model_id: [".

Definition sample_yaml_safe_load (content : string) : string + py_value :=
  if bool_decide (content = yaml_model_a) then
    inr (PyDict (sample_metadata "model_a" "onnx"))
  else if bool_decide (content = yaml_model_b) then
    inr (PyDict (sample_metadata "model_b" "pytorch"))
  else if bool_decide (content = yaml_model_c) then
    inr (PyDict (sample_metadata "model_c" "pytorch"))
  else if bool_decide (content = yaml_sequence) then
    inr (PyList [PyStr "a"])
  else if bool_decide (content = "") then
    inr PyNone
  else inl "while parsing a flow node: expected the node content, but found '<stream end>'".

Definition sample_fs : node :=
  Dir [("models", Dir [
    ("model_a", Dir [("metadata.yaml", File yaml_model_a);
                     ("model_a.onnx", File "onnx bytes")]);
    ("model_b", Dir [("metadata.yaml", File yaml_model_b);
                     ("a.pt", File "weights");
                     ("notes.txt", File "text");
                     ("b.pt", File "truncated");
                     ("c.pth", File "weights");
                     ("old", Dir [("d.pt", File "weights")])]);
    ("model_c", Dir [("metadata.yaml", File yaml_model_c);
                     ("good.pt", File "weights")]);
    ("mislabeled", Dir [("metadata.yaml", File yaml_model_a);
                        ("model_a.onnx", File "onnx bytes")]);
    ("no_meta", Dir [("weights.pt", File "weights")]);
    ("bad_yaml", Dir [("metadata.yaml", File yaml_broken)]);
    ("seq", Dir [("metadata.yaml", File yaml_sequence)]);
    ("readme.txt", File "text")])].

(** The components of an absolute POSIX path without [.] and [..] *)
Fixpoint split_path (acc s : string) : list string :=
  match s with
  | EmptyString => if bool_decide (acc = "") then [] else [acc]
  | String c s' =>
      if Ascii.eqb c "/" then
        (if bool_decide (acc = "") then [] else [acc]) ++ split_path "" s'
      else split_path (acc +:+ String c "") s'
  end.

Definition sample_torch : TorchLib :=
  {| torch_load mf _ _ :=
       if bool_decide (path_name mf = "b.pt") then
         Some (Exn LibraryError "PytorchStreamReader failed reading zip archive")
       else None |}.

Definition sample_onnx : OnnxLib :=
  {| onnx_load _ := None; onnx_check_model _ := None |}.

Definition sample_world : World :=
  {| resolve := split_path "";
     fs_root := sample_fs;
     yaml_safe_load := sample_yaml_safe_load;
     int_max_str_digits := 4300;
     py_str_other := λ _, inr "<object>";
     torch := inr sample_torch;
     tensorflow := inl (Exn ImportError "No module named 'tensorflow'");
     onnx := inr sample_onnx |}.

(** The same world on a machine without torch *)
Definition sample_world_no_torch : World :=
  {| resolve := split_path "";
     fs_root := sample_fs;
     yaml_safe_load := sample_yaml_safe_load;
     int_max_str_digits := 4300;
     py_str_other := λ _, inr "<object>";
     torch := inl (Exn ImportError "No module named 'torch'");
     tensorflow := inl (Exn ImportError "No module named 'tensorflow'");
     onnx := inr sample_onnx |}.

Definition prog : string := "scripts/validate_model.py".

(** ** Vocabulary for the tensorflow and onnx probes and for traces *)

(** What the onnx probe does for the files it gets through: one line, one
    load and one run of the checker per file, in order. *)
Definition onnx_attempts (files : list path) : list event :=
  flat_map (λ mf, [Stdout ("  Checking " +:+ path_name mf +:+ "...");
                   OnnxLoad (path_str mf);
                   OnnxCheckModel (path_str mf)]) files.

(** A file the onnx library loads and its checker accepts *)
Definition onnx_sound (lib : OnnxLib) (mf : path) : Prop :=
  onnx_load lib (path_str mf) = None
  ∧ onnx_check_model lib (path_str mf) = None.

(** Every event of a trace satisfies a test. *)
Definition only (P : event → bool) (t : list event) : Prop :=
  Forall (λ ev, P ev = true) t.

(** Printing, and calls into the one framework named *)
Definition torch_only (ev : event) : bool :=
  match ev with Stdout _ | TorchLoad _ _ _ => true | _ => false end.
Definition tensorflow_only (ev : event) : bool :=
  match ev with Stdout _ | TfSavedModelLoad _ => true | _ => false end.
Definition onnx_only (ev : event) : bool :=
  match ev with Stdout _ | OnnxLoad _ | OnnxCheckModel _ => true | _ => false end.
Definition prints_only (ev : event) : bool :=
  match ev with Stdout _ => true | _ => false end.

(** A call into torch, tensorflow or onnx *)
Definition is_framework_call (ev : event) : bool :=
  match ev with
  | TorchLoad _ _ _ | TfSavedModelLoad _ | OnnxLoad _ | OnnxCheckModel _ => true
  | _ => false
  end.

(** What may happen before the Smoke Tester is entered: printing of lines
    other than its first one, and the call into PyYAML. *)
Definition before_smoke (ev : event) : bool :=
  match ev with
  | Stdout text => negb (String.eqb text "ğŸ”¥ Running Lightweight Smoke Test...")
  | YamlSafeLoad _ => true
  | _ => false
  end.

(** The five required fields all hold text. *)
Definition tier_1_keys : list string :=
  ["model_id"; "git_hash"; "framework"; "min_app_version"; "required_hardware"].

(** ** A second sample world, with tensorflow installed *)

Definition sample_fs2 : node :=
  Dir [("m", Dir [
    ("tf_ok", Dir [("saved_model", Dir [("saved_model.pb", File "graph")])]);
    ("tf_bad", Dir [("saved_model", File "not a directory")]);
    ("tf_none", Dir [("weights.h5", File "weights")]);
    ("ox", Dir [("a.onnx", File "model"); ("b.onnx", File "truncated");
                ("c.onnx", File "model")]);
    ("ox2", Dir [("good.onnx", File "model"); ("cyclic.onnx", File "model")]);
    ("ox3", Dir [("good.onnx", File "model")]);
    ("dirmeta", Dir [("metadata.yaml", Dir []); ("weights.pt", File "weights")])])].

Definition sample_tensorflow : TensorflowLib :=
  {| tf_saved_model_load dir :=
       if bool_decide (dir = "/m/tf_bad/saved_model") then
         Some (Exn LibraryError "SavedModel file does not exist")
       else None |}.

Definition sample_onnx2 : OnnxLib :=
  {| onnx_load f :=
       if bool_decide (f = "/m/ox/b.onnx") then
         Some (Exn LibraryError "Error parsing message")
       else None;
     onnx_check_model f :=
       if bool_decide (f = "/m/ox2/cyclic.onnx") then
         Some (Exn LibraryError "Graph must be in single static assignment form")
       else None |}.

Definition sample_world2 : World :=
  {| resolve := split_path "";
     fs_root := sample_fs2;
     yaml_safe_load := sample_yaml_safe_load;
     int_max_str_digits := 4300;
     py_str_other := λ _, inr "<object>";
     torch := inl (Exn ImportError "No module named 'torch'");
     tensorflow := inr sample_tensorflow;
     onnx := inr sample_onnx2 |}.

(** The second world on a machine without onnx *)
Definition sample_world_no_onnx : World :=
  {| resolve := split_path "";
     fs_root := sample_fs2;
     yaml_safe_load := sample_yaml_safe_load;
     int_max_str_digits := 4300;
     py_str_other := λ _, inr "<object>";
     torch := inl (Exn ImportError "No module named 'torch'");
     tensorflow := inl (Exn ImportError "No module named 'tensorflow'");
     onnx := inl (Exn ImportError "No module named 'onnx'") |}.

(** ** Declarations whose model_id cannot be printed *)

(** [0xff...f] with 4000 hex digits, which YAML reads as an int; it has 4817
    decimal digits. *)
Definition huge_id : Z := 16 ^ 4000 - 1.

(** The sample declaration with that model_id and a given framework and
    required_hardware *)
Definition oversized (framework hardware : string) : gmap string py_value :=
  <["model_id" := PyInt huge_id]>
    (<["required_hardware" := PyStr hardware]>
       (sample_metadata "model_a" framework)).

(** What [str()] raises on it under the default limit *)
Definition digits_error : exn :=
  Exn ValueError
    ("Exceeds the limit (4300 digits) for integer string conversion; "
     +:+ "use sys.set_int_max_str_digits() to increase the limit").

(** * Properties *)

(** ** The monad *)

Ltac munfold :=
  unfold mbind, M_bind_inst, mret, M_ret_inst, print, sys_exit, raise in *.

Lemma M_bind_ret {A B : Type} (t : list event) (a : A) (f : A → M B) :
  M_bind f (t, Ret a) = (t ++ (f a).1, (f a).2).
Proof. simpl. destruct (f a); reflexivity. Qed.

Lemma M_bind_exit {A B : Type} (t : list event) (c : Z) (f : A → M B) :
  M_bind f (t, Exit c) = (t, Exit c).
Proof. reflexivity. Qed.

Lemma M_bind_raise {A B : Type} (t : list event) (e : exn) (f : A → M B) :
  M_bind f (t, Raise e) = (t, Raise e).
Proof. reflexivity. Qed.

Lemma for_each_print (lines : list string) :
  for_each lines print = (map Stdout lines, Ret ()).
Proof.
  induction lines as [|x lines IH]; [reflexivity|].
  simpl. munfold. simpl. rewrite IH. reflexivity.
Qed.

Lemma M_bind_eq {A B : Type} (m : M A) (f : A → M B) :
  M_bind f m = match m.2 with
               | Ret a => (m.1 ++ (f a).1, (f a).2)
               | Exit c => (m.1, Exit c)
               | Raise e => (m.1, Raise e)
               end.
Proof. destruct m as [t [a|c|e]]; simpl; [destruct (f a)|..]; reflexivity. Qed.

Lemma quiet_bind {A B : Type} (m : M A) (f : A → M B) :
  quiet m.1 → (∀ a, m.2 = Ret a → quiet (f a).1) → quiet (M_bind f m).1.
Proof.
  intros Hm Hf. rewrite M_bind_eq. destruct (m.2) as [a|c|e]; simpl; auto.
  apply Forall_app. split; [assumption|]. apply Hf. reflexivity.
Qed.

Lemma calm_bind {A B : Type} (m : M A) (f : A → M B) :
  calm m → (∀ a, m.2 = Ret a → calm (f a)) → calm (M_bind f m).
Proof.
  intros [Hq Hn] Hf. split.
  - apply quiet_bind; [assumption|]. intros a Ha. apply (Hf a Ha).
  - intros code. rewrite M_bind_eq. destruct (m.2) as [a|c|e] eqn:E; simpl.
    + apply (Hf a eq_refl).
    + destruct (Hn c E).
    + discriminate.
Qed.

Lemma calm_ret {A : Type} (a : A) : calm (mret a : M A).
Proof. split; [constructor|intros c; discriminate]. Qed.

Lemma calm_print (text : string) :
  is_fallback_warning (Stdout text) = false → calm (print text).
Proof.
  intros H. split; [repeat constructor; assumption|intros c; discriminate].
Qed.

Lemma calm_call (ev : event) (r : option exn) :
  is_fallback_warning ev = false → calm (call ev r).
Proof.
  intros H. split; [repeat constructor; assumption|].
  intros c. destruct r; discriminate.
Qed.

Lemma calm_import {L : Type} (m : exn + L) : calm (import_module m).
Proof. destruct m; (split; [constructor|intros c; discriminate]). Qed.

Lemma calm_for_each {A : Type} (l : list A) (body : A → M unit) :
  (∀ x, calm (body x)) → calm (for_each l body).
Proof.
  intros Hbody. induction l as [|x l IH]; [apply calm_ret|].
  cbn [for_each]. apply calm_bind; auto.
Qed.

Lemma calm_try_except {A : Type} (body : M A) (catches : exn → bool)
    (handler : exn → M A) :
  calm body → (∀ e, calm (handler e)) → calm (try_except body catches handler).
Proof.
  intros [Hq Hn] Hh. destruct body as [t [a|c|e]]; simpl in *.
  - split; [assumption|intros c; discriminate].
  - destruct (Hn c eq_refl).
  - destruct (catches e); [|split; [assumption|intros c; discriminate]].
    destruct (Hh e) as [Hq' Hn']. destruct (handler e) as [t' o]. split.
    + apply Forall_app. auto.
    + exact Hn'.
Qed.

(** Under [except Exception] a body that does not exit yields a result. *)
Lemma try_except_returns {A : Type} (body : M A) (handler : exn → M A) :
  no_exit body → (∀ e, ∃ t a, handler e = (t, Ret a)) →
  ∃ t a, try_except body except_Exception handler = (t, Ret a).
Proof.
  intros Hn Hh. destruct body as [t [a|c|e]]; simpl.
  - eauto.
  - destruct (Hn c eq_refl).
  - destruct (Hh e) as (t' & a & ->). eauto.
Qed.

(** ** Python comparisons against the specification's wording *)

Lemma py_eq_str_true (v : py_value) (s : string) :
  py_eq_str v s = true ↔ v = PyStr s.
Proof.
  destruct v; simpl; try (split; [discriminate|discriminate]).
  rewrite bool_decide_eq_true. split; [intros ->; reflexivity|].
  intros H. injection H as ->. reflexivity.
Qed.

Lemma isinstance_str (v : py_value) :
  isinstance v TStr = true ↔ ∃ s, v = PyStr s.
Proof.
  destruct v; simpl; split; try discriminate; eauto;
    intros [s H]; discriminate H.
Qed.

Lemma py_in_strs_true (v : py_value) (l : list string) :
  py_in_strs v l = true ↔ ∃ s, v = PyStr s ∧ s ∈ l.
Proof.
  unfold py_in_strs. rewrite existsb_exists. split.
  - intros (s & Hin & Heq). apply py_eq_str_true in Heq.
    exists s. split; [assumption|]. apply list_elem_of_In. assumption.
  - intros (s & -> & Hin). exists s. split.
    + apply list_elem_of_In. assumption.
    + apply py_eq_str_true. reflexivity.
Qed.

Lemma get_eq_folder (d : gmap string py_value) (folder : string) :
  py_eq_str (default PyNone (d !! "model_id")) folder
  = bool_decide (d !! "model_id" = Some (PyStr folder)).
Proof.
  destruct (py_eq_str _ folder) eqn:E; symmetry.
  - apply bool_decide_eq_true. apply py_eq_str_true in E.
    destruct (d !! "model_id") as [v|]; simpl in E; congruence.
  - apply bool_decide_eq_false. intros H. rewrite H in E. simpl in E.
    rewrite bool_decide_true in E by reflexivity. discriminate.
Qed.

Lemma get_in_domain (d : gmap string py_value) (field : string)
    (domain : list string) :
  py_in_strs (default PyNone (d !! field)) domain
  = bool_decide (one_of d field domain).
Proof.
  destruct (py_in_strs _ domain) eqn:E; symmetry.
  - apply bool_decide_eq_true. apply py_in_strs_true in E as (s & Hs & Hin).
    exists s. split; [|assumption].
    destruct (d !! field) as [v|]; simpl in Hs; congruence.
  - apply bool_decide_eq_false. intros (s & Hs & Hin).
    rewrite Hs in E. simpl in E.
    assert (py_in_strs (PyStr s) domain = true) as Ht
      by (apply py_in_strs_true; eauto).
    congruence.
Qed.

(** ** The Contract Validator on a mapping *)

Lemma check_field_dict (d : gmap string py_value) (errors : list string)
    (item : string * py_type) :
  check_field (PyDict d) errors item
  = ([], Ret (errors ++ spec_field_errors d item)).
Proof.
  destruct item as [field ty]. unfold check_field, spec_field_errors. simpl.
  destruct (d !! field) as [v|] eqn:E; munfold; simpl; [|reflexivity].
  destruct (isinstance v ty); simpl; [rewrite app_nil_r|]; reflexivity.
Qed.

Lemma field_loop_dict (d : gmap string py_value)
    (items : list (string * py_type)) (errors : list string) :
  for_acc items (check_field (PyDict d)) errors
  = ([], Ret (errors ++ concat (map (spec_field_errors d) items))).
Proof.
  revert errors. induction items as [|item items IH]; intros errors; simpl.
  - rewrite app_nil_r. reflexivity.
  - munfold. rewrite check_field_dict. simpl. rewrite IH.
    rewrite <- app_assoc. reflexivity.
Qed.

Lemma shown_model_id_matching (w : World) (d : gmap string py_value)
    (folder : string) :
  d !! "model_id" = Some (PyStr folder) → shown_model_id w d = inr folder.
Proof. intros H. unfold shown_model_id. rewrite H. reflexivity. Qed.

(** On a mapping the checks run to the end, unless the mismatch message
    cannot be built because [str()] of the declared model_id raises. *)
Lemma tier_1_errors_dict (w : World) (d : gmap string py_value)
    (folder : string) :
  tier_1_errors w (PyDict d) folder
  = match shown_model_id w d with
    | inr shown => ([], Ret (spec_errors shown d folder))
    | inl e => ([], Raise e)
    end.
Proof.
  unfold tier_1_errors, spec_errors. munfold. rewrite field_loop_dict.
  unfold py_get, py_str. munfold. cbn [M_bind app].
  rewrite get_eq_folder, !get_in_domain.
  unfold spec_model_id_errors, spec_framework_errors, spec_hardware_errors.
  destruct (decide (d !! "model_id" = Some (PyStr folder))) as [Hid|Hid].
  - rewrite (bool_decide_eq_true_2 _ Hid).
    rewrite (shown_model_id_matching w d folder Hid).
    repeat case_bool_decide; repeat case_decide; try contradiction;
      cbn [negb M_bind app]; rewrite ?app_nil_r, <- ?app_assoc; reflexivity.
  - rewrite (bool_decide_eq_false_2 _ Hid).
    cbn [negb]. fold (shown_model_id w d).
    destruct (shown_model_id w d) as [e|shown]; [reflexivity|].
    repeat case_bool_decide; repeat case_decide; try contradiction;
      cbn [negb M_bind app]; rewrite ?app_nil_r, <- ?app_assoc; reflexivity.
Qed.

Lemma validate_tier_1_dict (w : World) (d : gmap string py_value)
    (folder : string) :
  validate_tier_1 w (PyDict d) folder
  = match shown_model_id w d with
    | inr shown =>
        (validation_report (spec_errors shown d folder),
         Ret (bool_decide (spec_errors shown d folder = [])))
    | inl e =>
        ([Stdout "ğŸ” Validating Tier-1 (Blocking) fields..."], Raise e)
    end.
Proof.
  unfold validate_tier_1, validation_report. munfold.
  rewrite tier_1_errors_dict.
  destruct (shown_model_id w d) as [e|shown]; [reflexivity|].
  cbn [M_bind app].
  destruct (spec_errors shown d folder) as [|e errors]; [reflexivity|].
  rewrite for_each_print. cbn [M_bind app]. rewrite app_nil_r. reflexivity.
Qed.

Lemma validate_tier_1_prints (w : World) (d : gmap string py_value)
    (folder shown : string) :
  shown_model_id w d = inr shown →
  validate_tier_1 w (PyDict d) folder
  = (validation_report (spec_errors shown d folder),
     Ret (bool_decide (spec_errors shown d folder = []))).
Proof. intros H. rewrite validate_tier_1_dict, H. reflexivity. Qed.

(** ** The Contract Validator on anything that is not a mapping *)

Lemma check_field_no_exit (md : py_value) (errors : list string)
    (item : string * py_type) :
  is_dict md = false →
  (∃ e, check_field md errors item = ([], Raise e))
  ∨ (∃ errors', check_field md errors item = ([], Ret errors')).
Proof.
  intros Hmd. destruct item as [field ty].
  destruct md as [| | | | s | l | d]; try discriminate Hmd;
    try (left; eexists; reflexivity);
    unfold check_field, py_contains; munfold; cbn [M_bind app].
  - destruct (String.index 0 field s); cbn [negb M_bind app py_getitem];
      [left|right]; eexists; reflexivity.
  - destruct (existsb _ l); cbn [negb M_bind app py_getitem];
      [left|right]; eexists; reflexivity.
Qed.

Lemma field_loop_no_exit (md : py_value) (items : list (string * py_type))
    (errors : list string) :
  is_dict md = false →
  (∃ e, for_acc items (check_field md) errors = ([], Raise e))
  ∨ (∃ errors', for_acc items (check_field md) errors = ([], Ret errors')).
Proof.
  intros Hmd. revert errors.
  induction items as [|item items IH]; intros errors.
  - right. eexists. reflexivity.
  - cbn [for_acc]. munfold.
    destruct (check_field_no_exit md errors item Hmd) as [[e ->]|[errs ->]].
    + left. eexists. reflexivity.
    + cbn [M_bind app].
      destruct (IH errs) as [[e ->]|[errs' ->]];
        [left|right]; eexists; reflexivity.
Qed.

Lemma tier_1_errors_not_dict (w : World) (md : py_value) (folder : string) :
  is_dict md = false → ∃ e, tier_1_errors w md folder = ([], Raise e).
Proof.
  intros Hmd. unfold tier_1_errors. munfold.
  destruct (field_loop_no_exit md TIER_1_FIELDS [] Hmd) as [[e ->]|[errs ->]].
  - eexists. reflexivity.
  - destruct md; try discriminate Hmd; eexists; reflexivity.
Qed.

Lemma validate_tier_1_not_dict (w : World) (md : py_value) (folder : string) :
  is_dict md = false →
  ∃ e, validate_tier_1 w md folder
       = ([Stdout "ğŸ” Validating Tier-1 (Blocking) fields..."], Raise e).
Proof.
  intros Hmd. unfold validate_tier_1. munfold.
  destruct (tier_1_errors_not_dict w md folder Hmd) as [e ->].
  eexists. reflexivity.
Qed.

Lemma validate_tier_1_returns (w : World) (md : py_value) (folder : string)
    (t : list event) (ok : bool) :
  validate_tier_1 w md folder = (t, Ret ok) →
  ∃ d shown,
    md = PyDict d ∧ shown_model_id w d = inr shown
    ∧ t = validation_report (spec_errors shown d folder)
    ∧ ok = bool_decide (spec_errors shown d folder = []).
Proof.
  intros H. destruct (is_dict md) eqn:Hmd.
  - destruct md as [| | | | | | d]; try discriminate Hmd.
    rewrite validate_tier_1_dict in H.
    destruct (shown_model_id w d) as [e|shown] eqn:E; [discriminate H|].
    injection H as <- <-. eauto 10.
  - destruct (validate_tier_1_not_dict w md folder Hmd) as [e He].
    rewrite He in H. discriminate H.
Qed.

(** ** File name patterns *)

Lemma fnmatch_literal (pattern name : string) :
  literal pattern = true → (fnmatch pattern name = true ↔ name = pattern).
Proof.
  revert name. induction pattern as [|c pattern IH]; intros name Hlit.
  - destruct name; simpl; split; congruence.
  - simpl in Hlit. apply andb_true_iff in Hlit as [Hc Hlit].
    apply negb_true_iff in Hc. simpl. rewrite Hc.
    destruct name as [|c' name]; [split; discriminate|].
    rewrite andb_true_iff, Ascii.eqb_eq, (IH name Hlit).
    split; [intros [-> ->]; reflexivity|intros H; injection H as -> ->; auto].
Qed.

Lemma fnmatch_star (ext name : string) :
  literal ext = true →
  (fnmatch (String "*" ext) name = true ↔ ∃ stem, name = stem +:+ ext).
Proof.
  intros Hlit. induction name as [|c name IH].
  - cbn. rewrite orb_false_r, (fnmatch_literal ext "" Hlit). split.
    + intros <-. exists "". reflexivity.
    + intros (stem & H). destruct stem; simpl in H; [assumption|discriminate].
  - cbn in IH |- *. rewrite orb_true_iff, IH, (fnmatch_literal ext _ Hlit).
    split.
    + intros [H|(stem & ->)].
      * exists "". exact H.
      * exists (String c stem). reflexivity.
    + intros (stem & H). destruct stem as [|c' stem]; simpl in H.
      * left. assumption.
      * right. injection H as -> ->. exists stem. reflexivity.
Qed.

Lemma path_glob_elem (w : World) (p : path) (ext : string) (f : path) :
  literal ext = true →
  (f ∈ path_glob w p (String "*" ext) ↔
   ∃ entries name x stem,
     fs_lookup (fs_root w) p = Some (Dir entries) ∧ (name, x) ∈ entries
     ∧ name = stem +:+ ext ∧ f = p ++ [name]).
Proof.
  intros Hlit. unfold path_glob.
  destruct (fs_lookup (fs_root w) p) as [[content|entries]|].
  - split; [intros H; inversion H|intros (? & ? & ? & ? & H & _); discriminate].
  - rewrite list_elem_of_fmap. split.
    + intros ([name x] & -> & Hin). apply list_elem_of_filter in Hin as [Hm Hin].
      simpl in Hm. apply (fnmatch_star ext name Hlit) in Hm as [stem Hstem].
      exists entries, name, x, stem. auto.
    + intros (entries' & name & x & stem & Heq & Hin & Hname & ->).
      injection Heq as <-. exists (name, x). split; [reflexivity|].
      apply list_elem_of_filter. split; [|assumption].
      simpl. apply (fnmatch_star ext name Hlit). eauto.
  - split; [intros H; inversion H|intros (? & ? & ? & ? & H & _); discriminate].
Qed.

(** ** The pytorch probe *)

Lemma load_weights_eq (lib : TorchLib) (mf : path) :
  load_weights lib mf
  = ([Stdout ("  Loading " +:+ path_name mf +:+ "...");
      TorchLoad mf "cpu" true],
     match torch_load lib mf "cpu" true with
     | Some e => Raise e
     | None => Ret ()
     end).
Proof. reflexivity. Qed.

Lemma torch_loop_all (lib : TorchLib) (files : list path) :
  Forall (λ mf, torch_load lib mf "cpu" true = None) files →
  for_each files (load_weights lib) = (torch_attempts files, Ret ()).
Proof.
  induction 1 as [|mf files Hmf _ IH]; [reflexivity|].
  cbn [for_each]. rewrite IH, load_weights_eq, Hmf. reflexivity.
Qed.

Lemma torch_loop_stops (lib : TorchLib) (pre post : list path) (f : path)
    (e : exn) :
  Forall (λ mf, torch_load lib mf "cpu" true = None) pre →
  torch_load lib f "cpu" true = Some e →
  for_each (pre ++ f :: post) (load_weights lib)
  = (torch_attempts (pre ++ [f]), Raise e).
Proof.
  intros Hpre Hf. induction Hpre as [|mf pre Hmf _ IH].
  - cbn [app for_each]. rewrite load_weights_eq, Hf. reflexivity.
  - cbn [app for_each]. rewrite IH, load_weights_eq, Hmf. reflexivity.
Qed.

(** Either every file loads or there is a first one that does not. *)
Lemma first_failure (lib : TorchLib) (files : list path) :
  Forall (λ mf, torch_load lib mf "cpu" true = None) files
  ∨ ∃ pre f post e,
      files = pre ++ f :: post
      ∧ Forall (λ mf, torch_load lib mf "cpu" true = None) pre
      ∧ torch_load lib f "cpu" true = Some e.
Proof.
  induction files as [|mf files IH]; [left; constructor|].
  destruct (torch_load lib mf "cpu" true) as [e|] eqn:E.
  - right. exists [], mf, files, e. auto.
  - destruct IH as [Hall|(pre & f & post & e & -> & Hpre & Hf)].
    + left. constructor; assumption.
    + right. exists (mf :: pre), f, post, e. auto.
Qed.

Lemma smoke_pytorch_none (w : World) (model_path : path) :
  pytorch_files w model_path = [] →
  smoke_pytorch w model_path
  = ([Stdout "âŒ No PyTorch model files (.pt/.pth) found"], Ret false).
Proof.
  intros H. unfold smoke_pytorch. fold (pytorch_files w model_path).
  rewrite H. reflexivity.
Qed.

Lemma smoke_pytorch_no_torch (w : World) (model_path : path) (e : exn) :
  pytorch_files w model_path ≠ [] → torch w = inl e →
  smoke_pytorch w model_path
  = ([Stdout ("âŒ Smoke Test FAILED: " +:+ exn_msg e)], Ret false).
Proof.
  intros Hne Himp. unfold smoke_pytorch. fold (pytorch_files w model_path).
  destruct (pytorch_files w model_path) as [|mf files]; [contradiction|].
  rewrite Himp. reflexivity.
Qed.

Lemma smoke_pytorch_all (w : World) (model_path : path) (lib : TorchLib) :
  pytorch_files w model_path ≠ [] → torch w = inr lib →
  Forall (λ mf, torch_load lib mf "cpu" true = None) (pytorch_files w model_path) →
  smoke_pytorch w model_path
  = (torch_attempts (pytorch_files w model_path)
       ++ [Stdout "âœ… Smoke Test PASSED (PyTorch)"], Ret true).
Proof.
  intros Hne Himp Hall. unfold smoke_pytorch. fold (pytorch_files w model_path).
  destruct (pytorch_files w model_path) as [|mf files] eqn:E; [contradiction|].
  pose proof (torch_loop_all lib _ Hall) as Hloop.
  rewrite Himp. unfold import_module. munfold. cbn [M_bind app].
  rewrite Hloop. reflexivity.
Qed.

Lemma smoke_pytorch_stops (w : World) (model_path : path) (lib : TorchLib)
    (pre post : list path) (f : path) (e : exn) :
  pytorch_files w model_path = pre ++ f :: post → torch w = inr lib →
  Forall (λ mf, torch_load lib mf "cpu" true = None) pre →
  torch_load lib f "cpu" true = Some e →
  smoke_pytorch w model_path
  = (torch_attempts (pre ++ [f])
       ++ [Stdout ("âŒ Smoke Test FAILED: " +:+ exn_msg e)], Ret false).
Proof.
  intros Hfiles Himp Hpre Hf. unfold smoke_pytorch.
  fold (pytorch_files w model_path). rewrite Hfiles.
  destruct (pre ++ f :: post) as [|mf files] eqn:E;
    [destruct pre; discriminate E|].
  pose proof (torch_loop_stops lib pre post f e Hpre Hf) as Hloop.
  rewrite <- E, Himp. unfold import_module. munfold. cbn [M_bind app].
  rewrite Hloop. reflexivity.
Qed.

Lemma smoke_test_model_pytorch (w : World) (model_path : path) :
  smoke_test_model w model_path (PyStr "pytorch")
  = (Stdout "ğŸ”¥ Running Lightweight Smoke Test..."
       :: (smoke_pytorch w model_path).1,
     (smoke_pytorch w model_path).2).
Proof.
  unfold smoke_test_model. munfold. cbn [py_eq_str M_bind].
  rewrite bool_decide_true by reflexivity.
  destruct (smoke_pytorch w model_path). reflexivity.
Qed.

(** ** The probes never exit, never raise and never print the fallback line *)

Ltac calm_step :=
  first
    [ apply calm_ret
    | apply calm_print; reflexivity
    | apply calm_call; reflexivity
    | apply calm_import
    | apply calm_for_each; intros ?
    | apply calm_try_except; [|intros ?]
    | apply calm_bind; [|intros ? _] ].

Lemma calm_smoke_failed (e : exn) : calm (smoke_failed e).
Proof. unfold smoke_failed. repeat calm_step. Qed.

Lemma calm_load_weights (lib : TorchLib) (mf : path) : calm (load_weights lib mf).
Proof. unfold load_weights. repeat calm_step. Qed.

Lemma calm_check_onnx_file (lib : OnnxLib) (mf : path) :
  calm (check_onnx_file lib mf).
Proof. unfold check_onnx_file. repeat calm_step. Qed.

Lemma calm_pytorch_body (w : World) (files : list path) :
  calm (lib ← import_module (torch w);
        for_each files (load_weights lib) ;;
        print "âœ… Smoke Test PASSED (PyTorch)" ;;
        mret true).
Proof.
  apply calm_bind; [apply calm_import|intros lib _].
  apply calm_bind; [apply calm_for_each, calm_load_weights|intros _ _].
  repeat calm_step.
Qed.

Lemma calm_tensorflow_body (w : World) (model_path : path) :
  calm (lib ← import_module (tensorflow w);
        let saved_model_dir := model_path ++ ["saved_model"] in
        if path_exists w saved_model_dir then
          call (TfSavedModelLoad (path_str saved_model_dir))
               (tf_saved_model_load lib (path_str saved_model_dir)) ;;
          print "âœ… Smoke Test PASSED (TensorFlow)" ;;
          mret true
        else
          print "âŒ No saved_model directory found" ;;
          mret false).
Proof.
  apply calm_bind; [apply calm_import|intros lib _]. cbv zeta.
  destruct (path_exists w _); repeat calm_step.
Qed.

Lemma calm_onnx_body (w : World) (model_path : path) :
  calm (lib ← import_module (onnx w);
        let onnx_files := path_glob w model_path "*.onnx" in
        match onnx_files with
        | [] =>
            print "âŒ No ONNX model files (.onnx) found" ;;
            mret false
        | _ :: _ =>
            for_each onnx_files (check_onnx_file lib) ;;
            print "âœ… Smoke Test PASSED (ONNX)" ;;
            mret true
        end).
Proof.
  apply calm_bind; [apply calm_import|intros lib _]. cbv zeta.
  destruct (path_glob w model_path "*.onnx"); [repeat calm_step|].
  apply calm_bind; [apply calm_for_each, calm_check_onnx_file|intros _ _].
  repeat calm_step.
Qed.

Lemma smoke_failed_returns (e : exn) : ∃ t b, smoke_failed e = (t, Ret b).
Proof. eexists _, _. reflexivity. Qed.

Lemma smoke_pytorch_returns (w : World) (model_path : path) :
  calm (smoke_pytorch w model_path)
  ∧ ∃ t b, smoke_pytorch w model_path = (t, Ret b).
Proof.
  unfold smoke_pytorch. destruct (_ ++ _) as [|mf files].
  - split; [repeat calm_step|eexists _, _; reflexivity].
  - split.
    + apply calm_try_except; [apply calm_pytorch_body|apply calm_smoke_failed].
    + apply try_except_returns;
        [apply calm_pytorch_body|apply smoke_failed_returns].
Qed.

Lemma smoke_tensorflow_returns (w : World) (model_path : path) :
  calm (smoke_tensorflow w model_path)
  ∧ ∃ t b, smoke_tensorflow w model_path = (t, Ret b).
Proof.
  unfold smoke_tensorflow. split.
  - apply calm_try_except; [apply calm_tensorflow_body|apply calm_smoke_failed].
  - apply try_except_returns;
      [apply calm_tensorflow_body|apply smoke_failed_returns].
Qed.

Lemma smoke_onnx_returns (w : World) (model_path : path) :
  calm (smoke_onnx w model_path)
  ∧ ∃ t b, smoke_onnx w model_path = (t, Ret b).
Proof.
  unfold smoke_onnx. split.
  - apply calm_try_except; [apply calm_onnx_body|apply calm_smoke_failed].
  - apply try_except_returns; [apply calm_onnx_body|apply smoke_failed_returns].
Qed.

(** The dispatch of smoke_test_model, arm by arm *)
Lemma smoke_test_model_eq (w : World) (model_path : path) (framework : py_value) :
  smoke_test_model w model_path framework
  = M_bind (λ _,
      if py_eq_str framework "pytorch" then smoke_pytorch w model_path
      else if py_eq_str framework "tensorflow" then smoke_tensorflow w model_path
      else if py_eq_str framework "onnx" then smoke_onnx w model_path
      else smoke_unknown w framework)
      (print "ğŸ”¥ Running Lightweight Smoke Test...").
Proof. reflexivity. Qed.

(** On any text as framework the Smoke Tester answers. *)
Lemma smoke_test_model_returns (w : World) (model_path : path) (s : string) :
  ∃ t b, smoke_test_model w model_path (PyStr s) = (t, Ret b).
Proof.
  rewrite smoke_test_model_eq. unfold print. rewrite M_bind_ret.
  assert (∃ t b,
    (if py_eq_str (PyStr s) "pytorch" then smoke_pytorch w model_path
     else if py_eq_str (PyStr s) "tensorflow" then smoke_tensorflow w model_path
     else if py_eq_str (PyStr s) "onnx" then smoke_onnx w model_path
     else smoke_unknown w (PyStr s)) = (t, Ret b)) as (t & b & ->).
  { destruct (py_eq_str (PyStr s) "pytorch");
      [apply smoke_pytorch_returns|].
    destruct (py_eq_str (PyStr s) "tensorflow");
      [apply smoke_tensorflow_returns|].
    destruct (py_eq_str (PyStr s) "onnx");
      [apply smoke_onnx_returns|].
    eexists _, _. reflexivity. }
  eexists _, _. reflexivity.
Qed.

(** On a recognised framework the dispatch takes one of the three probes. *)
Lemma smoke_test_model_valid (w : World) (model_path : path) (s : string) :
  s ∈ VALID_FRAMEWORKS →
  calm (smoke_test_model w model_path (PyStr s)).
Proof.
  intros Hs. rewrite smoke_test_model_eq.
  apply calm_bind; [apply calm_print; reflexivity|intros _ _].
  unfold VALID_FRAMEWORKS in Hs.
  repeat (apply elem_of_cons in Hs as [->|Hs]);
    [apply smoke_pytorch_returns|apply smoke_tensorflow_returns
    |apply smoke_onnx_returns|inversion Hs].
Qed.

(** ** The Metadata Loader, case by case *)

Lemma load_metadata_missing (w : World) (model_path : path) :
  fs_lookup (fs_root w) (model_path ++ ["metadata.yaml"]) = None →
  load_metadata w model_path
  = ([Stdout ("âŒ FATAL: metadata.yaml not found in " +:+ path_str model_path)],
     Exit 1).
Proof.
  intros H. unfold load_metadata, path_exists. rewrite H. reflexivity.
Qed.

Lemma load_metadata_dir (w : World) (model_path : path)
    (entries : list (string * node)) :
  fs_lookup (fs_root w) (model_path ++ ["metadata.yaml"]) = Some (Dir entries) →
  ∃ e, load_metadata w model_path = ([], Raise e).
Proof.
  intros H. unfold load_metadata, path_exists, open_read. rewrite H.
  eexists. reflexivity.
Qed.

Lemma load_metadata_invalid (w : World) (model_path : path)
    (content msg : string) :
  fs_lookup (fs_root w) (model_path ++ ["metadata.yaml"]) = Some (File content) →
  yaml_safe_load w content = inl msg →
  load_metadata w model_path
  = ([YamlSafeLoad content;
      Stdout ("âŒ FATAL: Invalid YAML in metadata.yaml: " +:+ msg)], Exit 1).
Proof.
  intros H Hy. unfold load_metadata, path_exists, open_read, yaml_load.
  rewrite H. munfold. cbn [negb M_bind app]. rewrite Hy. reflexivity.
Qed.

Lemma load_metadata_parsed (w : World) (model_path : path)
    (content : string) (v : py_value) :
  fs_lookup (fs_root w) (model_path ++ ["metadata.yaml"]) = Some (File content) →
  yaml_safe_load w content = inr v →
  load_metadata w model_path = ([YamlSafeLoad content], Ret v).
Proof.
  intros H Hy. unfold load_metadata, path_exists, open_read, yaml_load.
  rewrite H. munfold. cbn [negb M_bind app]. rewrite Hy. reflexivity.
Qed.

Lemma quiet_load_metadata (w : World) (model_path : path) :
  quiet (load_metadata w model_path).1.
Proof.
  destruct (fs_lookup (fs_root w) (model_path ++ ["metadata.yaml"]))
    as [[content|entries]|] eqn:E.
  - destruct (yaml_safe_load w content) as [msg|v] eqn:Ey.
    + rewrite (load_metadata_invalid w _ content msg E Ey).
      repeat constructor.
    + rewrite (load_metadata_parsed w _ content v E Ey). repeat constructor.
  - destruct (load_metadata_dir w _ entries E) as [e ->]. constructor.
  - rewrite (load_metadata_missing w _ E). repeat constructor.
Qed.

(** ** The Orchestrator, case by case *)

Lemma main_usage (w : World) (argv : list string) :
  length argv ≠ 2%nat →
  main w argv
  = ([Stdout "Usage: python scripts/validate_model.py <model_folder_path>"],
     Exit 1).
Proof. intros H. unfold main. rewrite bool_decide_true by assumption. reflexivity. Qed.

Lemma main_no_path (w : World) (argv : list string) :
  length argv = 2%nat → path_exists w (model_path_of w argv) = false →
  main w argv
  = ([Stdout ("âŒ FATAL: Model path does not exist: "
               +:+ path_str (model_path_of w argv))], Exit 1).
Proof.
  intros H He. unfold main. rewrite bool_decide_false by (rewrite H; auto).
  fold (model_path_of w argv). rewrite He. reflexivity.
Qed.

Lemma main_not_dir (w : World) (argv : list string) :
  length argv = 2%nat → path_exists w (model_path_of w argv) = true →
  path_is_dir w (model_path_of w argv) = false →
  main w argv
  = ([Stdout ("âŒ FATAL: Model path is not a directory: "
               +:+ path_str (model_path_of w argv))], Exit 1).
Proof.
  intros H He Hd. unfold main. rewrite bool_decide_false by (rewrite H; auto).
  fold (model_path_of w argv). rewrite He, Hd. reflexivity.
Qed.

Lemma path_is_dir_exists (w : World) (p : path) :
  path_is_dir w p = true → path_exists w p = true.
Proof.
  unfold path_is_dir, path_exists. destruct (fs_lookup _ p); [reflexivity|discriminate].
Qed.

Lemma main_folder (w : World) (argv : list string) :
  length argv = 2%nat → path_is_dir w (model_path_of w argv) = true →
  let model_path := model_path_of w argv in
  let hd := banner (path_name model_path) in
  main w argv =
  match load_metadata w model_path with
  | (t1, Ret metadata) =>
      match validate_tier_1 w metadata (path_name model_path) with
      | (t2, Ret true) =>
          match py_get metadata "framework" (PyStr "") with
          | (t3, Ret framework) =>
              match smoke_test_model w model_path framework with
              | (t4, Ret true) =>
                  (hd ++ t1 ++ t2 ++ t3 ++ t4 ++
                   [Stdout (nl +:+ "âœ… ALL VALIDATIONS PASSED. Model is eligible for promotion.")],
                   Exit 0)
              | (t4, Ret false) =>
                  (hd ++ t1 ++ t2 ++ t3 ++ t4 ++
                   [Stdout (nl +:+ "ğŸš« PROMOTION BLOCKED: Model artifact corruption detected.")],
                   Exit 2)
              | (t4, Exit c) => (hd ++ t1 ++ t2 ++ t3 ++ t4, Exit c)
              | (t4, Raise e) => (hd ++ t1 ++ t2 ++ t3 ++ t4, Raise e)
              end
          | (t3, Exit c) => (hd ++ t1 ++ t2 ++ t3, Exit c)
          | (t3, Raise e) => (hd ++ t1 ++ t2 ++ t3, Raise e)
          end
      | (t2, Ret false) =>
          (hd ++ t1 ++ t2 ++
           [Stdout (nl +:+ "ğŸš« PROMOTION BLOCKED: Tier-1 validation failed.")],
           Exit 1)
      | (t2, Exit c) => (hd ++ t1 ++ t2, Exit c)
      | (t2, Raise e) => (hd ++ t1 ++ t2, Raise e)
      end
  | (t1, Exit c) => (hd ++ t1, Exit c)
  | (t1, Raise e) => (hd ++ t1, Raise e)
  end.
Proof.
  intros H Hd. cbv zeta. unfold main.
  rewrite bool_decide_false by (rewrite H; auto).
  fold (model_path_of w argv).
  rewrite (path_is_dir_exists w _ Hd), Hd.
  set (model_path := model_path_of w argv). munfold. cbn [negb M_bind app].
  destruct (load_metadata w model_path) as [t1 [metadata|c|e]];
    cbn [M_bind app]; [|reflexivity..].
  destruct (validate_tier_1 w metadata _) as [t2 [[|]|c|e]];
    cbn [negb M_bind app]; [| |reflexivity..].
  - destruct (py_get metadata "framework" (PyStr "")) as [t3 [framework|c|e]];
      cbn [M_bind app]; [|reflexivity..].
    destruct (smoke_test_model w model_path framework) as [t4 [[|]|c|e]];
      cbn [negb M_bind app]; [| |reflexivity..].
    + reflexivity.
    + reflexivity.
  - reflexivity.
Qed.

(** ** The claims about the Contract Validator *)

(** The four claims below hold of the code whenever the mismatch message of
    line 64 can be built ([validator_reports_unless_model_id_unprintable]
    and the theorems after it).  They fail on one kind of declaration: a
    model_id that differs from the folder name and that [str()] refuses to
    print, such as an int of more than 4300 digits.  The validator then
    raises while it builds the message, and the errors it has collected,
    the type error of model_id among them, are lost. *)

Lemma oversized_model_id (framework hardware : string) :
  oversized framework hardware !! "model_id" = Some (PyInt huge_id).
Proof. unfold oversized. apply lookup_insert_eq. Qed.

(** C1 (the code departs from it).  The declaration has a model_id that is
    not text and is not the folder name, and a framework and a
    required_hardware outside their domains: four checks have something to
    report.  The validator reports none of it: it prints its first line and
    raises ValueError at the mismatch message, before the two domain checks
    are evaluated, and returns no outcome. *)
Theorem validator_loses_all_errors_on_huge_model_id :
  let d := oversized "jax" "gpu" in
  isinstance (PyInt huge_id) TStr = false
  ∧ d !! "model_id" ≠ Some (PyStr "model_a")
  ∧ ¬ one_of d "framework" VALID_FRAMEWORKS
  ∧ ¬ one_of d "required_hardware" VALID_HARDWARE
  ∧ tier_1_errors sample_world (PyDict d) "model_a" = ([], Raise digits_error)
  ∧ validate_tier_1 sample_world (PyDict d) "model_a"
    = ([Stdout "ğŸ” Validating Tier-1 (Blocking) fields..."],
       Raise digits_error).
Proof.
  intros d. split; [reflexivity|].
  split; [subst d; rewrite oversized_model_id; discriminate|].
  split; [apply (proj1 (bool_decide_eq_false _)); vm_compute; reflexivity|].
  split; [apply (proj1 (bool_decide_eq_false _)); vm_compute; reflexivity|].
  split; vm_compute; reflexivity.
Qed.

(** C4 (the code departs from it).  Only the model_id of the declaration is
    wrong: it is not the folder name.  No mismatch error is flagged and the
    outcome is not fail: the validator raises ValueError while it formats
    the declared value into the mismatch message. *)
Theorem mismatch_of_huge_model_id_is_not_flagged :
  let d := oversized "onnx" "cpu" in
  d !! "model_id" ≠ Some (PyStr "model_a")
  ∧ py_str sample_world (PyInt huge_id) = ([], Raise digits_error)
  ∧ validate_tier_1 sample_world (PyDict d) "model_a"
    = ([Stdout "ğŸ” Validating Tier-1 (Blocking) fields..."],
       Raise digits_error).
Proof.
  intros d.
  split; [subst d; rewrite oversized_model_id; discriminate|].
  split; vm_compute; reflexivity.
Qed.

(** C5 (the code departs from it).  The framework and the required_hardware
    of the declaration are outside their domains, but neither is flagged and
    the outcome is not fail: the validator raises at line 64, on the
    model_id, before it reaches the domain checks of lines 67 and 71. *)
Theorem domains_are_not_checked_after_huge_model_id :
  let d := oversized "caffe" "tpu" in
  ¬ one_of d "framework" VALID_FRAMEWORKS
  ∧ ¬ one_of d "required_hardware" VALID_HARDWARE
  ∧ tier_1_errors sample_world (PyDict d) "model_a" = ([], Raise digits_error)
  ∧ (validate_tier_1 sample_world (PyDict d) "model_a").2 = Raise digits_error
  ∧ (Stdout msg_framework ∉ (validate_tier_1 sample_world (PyDict d) "model_a").1)
  ∧ (Stdout msg_hardware ∉ (validate_tier_1 sample_world (PyDict d) "model_a").1).
Proof.
  intros d.
  assert (validate_tier_1 sample_world (PyDict d) "model_a"
          = ([Stdout "ğŸ” Validating Tier-1 (Blocking) fields..."],
             Raise digits_error)) as E by (vm_compute; reflexivity).
  split; [apply (proj1 (bool_decide_eq_false _)); vm_compute; reflexivity|].
  split; [apply (proj1 (bool_decide_eq_false _)); vm_compute; reflexivity|].
  split; [vm_compute; reflexivity|]. rewrite E. cbn [fst snd].
  split; [reflexivity|].
  split; intros Hin; apply list_elem_of_singleton in Hin; discriminate Hin.
Qed.

(** C10 (the code departs from it).  The declaration holds a model_id and
    nothing else, so framework and required_hardware are absent.  Their
    missing-field errors are collected by the loop, but the domain checks
    that would add the second error of each are never reached: the
    validator raises at line 64 and the collected errors are lost. *)
Theorem absent_fields_are_not_flagged_after_huge_model_id :
  let d : gmap string py_value := {[ "model_id" := PyInt huge_id ]} in
  d !! "framework" = None
  ∧ d !! "required_hardware" = None
  ∧ for_acc TIER_1_FIELDS (check_field (PyDict d)) []
    = ([], Ret [msg_type "model_id" TStr; msg_missing "git_hash";
                msg_missing "framework"; msg_missing "min_app_version";
                msg_missing "required_hardware"])
  ∧ tier_1_errors sample_world (PyDict d) "model_a" = ([], Raise digits_error)
  ∧ validate_tier_1 sample_world (PyDict d) "model_a"
    = ([Stdout "ğŸ” Validating Tier-1 (Blocking) fields..."],
       Raise digits_error).
Proof.
  intros d. split; [reflexivity|]. split; [reflexivity|].
  split; [|split]; vm_compute; reflexivity.
Qed.

(** ** The claims about the Artifact Smoke Tester *)

Lemma torch_attempts_elem (files : list path) (mf : path) :
  mf ∈ files → TorchLoad mf "cpu" true ∈ torch_attempts files.
Proof.
  intros Hin. unfold torch_attempts. apply list_elem_of_In, in_flat_map.
  exists mf. split; [apply list_elem_of_In; assumption|]. right. left. reflexivity.
Qed.

Lemma pytorch_files_elem (w : World) (model_path f : path) :
  f ∈ pytorch_files w model_path ↔
  ∃ entries name x stem,
    fs_lookup (fs_root w) model_path = Some (Dir entries) ∧ (name, x) ∈ entries
    ∧ (name = stem +:+ ".pt" ∨ name = stem +:+ ".pth")
    ∧ f = model_path ++ [name].
Proof.
  unfold pytorch_files. rewrite elem_of_app.
  rewrite (path_glob_elem w model_path ".pt" f eq_refl).
  rewrite (path_glob_elem w model_path ".pth" f eq_refl).
  split.
  - intros [(es & n & x & stem & H1 & H2 & H3 & H4)
           |(es & n & x & stem & H1 & H2 & H3 & H4)];
      exists es, n, x, stem; auto.
  - intros (es & n & x & stem & H1 & H2 & [H3|H3] & H4);
      [left|right]; exists es, n, x, stem; auto.
Qed.

(** C3. For a pytorch model folder the smoke test looks at the direct
    children of the folder named [*.pt] or [*.pth] (first the [.pt] files,
    then the [.pth] files, nothing below a sub-folder).  It fails when there
    are none.  Otherwise, with torch importable, it loads the files in order,
    each weights-only and mapped to the CPU; the first load that raises ends
    the loop, the files after it are not touched, and the test fails.  The
    test passes only if every file found was loaded without error.  (When
    [import torch] itself raises, the test fails before any load.) *)
Theorem pytorch_smoke_test (w : World) (model_path : path) :
  let files := pytorch_files w model_path in
  let smoke := smoke_test_model w model_path (PyStr "pytorch") in
  let header := Stdout "ğŸ”¥ Running Lightweight Smoke Test..." in
  (∀ f, f ∈ files ↔
        ∃ entries name x stem,
          fs_lookup (fs_root w) model_path = Some (Dir entries)
          ∧ (name, x) ∈ entries
          ∧ (name = stem +:+ ".pt" ∨ name = stem +:+ ".pth")
          ∧ f = model_path ++ [name])
  ∧ (files = [] →
     smoke = ([header; Stdout "âŒ No PyTorch model files (.pt/.pth) found"],
              Ret false))
  ∧ (∀ lib, files ≠ [] → torch w = inr lib →
       Forall (λ mf, torch_load lib mf "cpu" true = None) files →
       smoke = (header :: torch_attempts files
                  ++ [Stdout "âœ… Smoke Test PASSED (PyTorch)"], Ret true))
  ∧ (∀ lib pre f post e, files = pre ++ f :: post → torch w = inr lib →
       Forall (λ mf, torch_load lib mf "cpu" true = None) pre →
       torch_load lib f "cpu" true = Some e →
       smoke = (header :: torch_attempts (pre ++ [f])
                  ++ [Stdout ("âŒ Smoke Test FAILED: " +:+ exn_msg e)],
                Ret false))
  ∧ (∀ e, files ≠ [] → torch w = inl e →
       smoke = ([header; Stdout ("âŒ Smoke Test FAILED: " +:+ exn_msg e)],
                Ret false))
  ∧ (∀ t, smoke = (t, Ret true) →
       files ≠ [] ∧
       ∃ lib, torch w = inr lib
              ∧ Forall (λ mf, torch_load lib mf "cpu" true = None
                              ∧ TorchLoad mf "cpu" true ∈ t) files).
Proof.
  intros files smoke header. subst smoke. rewrite smoke_test_model_pytorch.
  fold header. split; [apply pytorch_files_elem|].
  split; [intros H; rewrite (smoke_pytorch_none w _ H); reflexivity|].
  split; [intros lib Hne Hl Hall;
          rewrite (smoke_pytorch_all w _ lib Hne Hl Hall); reflexivity|].
  split; [intros lib pre f post e Hf Hl Hpre He;
          rewrite (smoke_pytorch_stops w _ lib pre post f e Hf Hl Hpre He);
          reflexivity|].
  split; [intros e Hne Hl; rewrite (smoke_pytorch_no_torch w _ e Hne Hl);
          reflexivity|].
  intros t Hpass.
  destruct (decide (files = [])) as [Hnil|Hne].
  { rewrite (smoke_pytorch_none w _ Hnil) in Hpass. discriminate Hpass. }
  split; [assumption|].
  destruct (torch w) as [e|lib] eqn:Hl.
  { rewrite (smoke_pytorch_no_torch w _ e Hne Hl) in Hpass. discriminate Hpass. }
  exists lib. split; [reflexivity|].
  destruct (first_failure lib files) as [Hall|(pre & f & post & e & Hf & Hpre & He)].
  - rewrite (smoke_pytorch_all w _ lib Hne Hl Hall) in Hpass.
    injection Hpass as <-. apply Forall_forall. intros mf Hin.
    split; [exact (proj1 (Forall_forall _ _) Hall mf Hin)|].
    apply list_elem_of_further, elem_of_app. left.
    apply torch_attempts_elem. assumption.
  - rewrite (smoke_pytorch_stops w _ lib pre post f e Hf Hl Hpre He) in Hpass.
    discriminate Hpass.
Qed.


(** ** A passed contract pins the framework *)

Lemma quiet_field_errors (d : gmap string py_value)
    (items : list (string * py_type)) :
  quiet (map Stdout (concat (map (spec_field_errors d) items))).
Proof.
  induction items as [|[field ty] items IH]; [constructor|].
  cbn [map concat]. rewrite map_app. apply Forall_app. split; [|assumption].
  unfold spec_field_errors. cbn [fst snd].
  destruct (d !! field) as [v|]; [destruct (isinstance v ty)|];
    repeat constructor.
Qed.

Lemma quiet_validation_report (shown : string) (d : gmap string py_value)
    (folder : string) :
  quiet (validation_report (spec_errors shown d folder)).
Proof.
  assert (quiet (map Stdout (spec_errors shown d folder))) as Hq.
  { unfold spec_errors. rewrite !map_app. repeat apply Forall_app_2.
    - apply quiet_field_errors.
    - unfold spec_model_id_errors. case_decide; repeat constructor.
    - unfold spec_framework_errors. case_decide; repeat constructor.
    - unfold spec_hardware_errors. case_decide; repeat constructor. }
  unfold validation_report.
  destruct (spec_errors shown d folder); [repeat constructor|].
  apply Forall_cons. split; [reflexivity|].
  apply Forall_cons. split; [reflexivity|exact Hq].
Qed.

Lemma validate_tier_1_cases (w : World) (md : py_value) (folder : string) :
  quiet (validate_tier_1 w md folder).1
  ∧ ((∃ t b, validate_tier_1 w md folder = (t, Ret b))
     ∨ (∃ t e, validate_tier_1 w md folder = (t, Raise e))).
Proof.
  destruct (is_dict md) eqn:Hmd.
  - destruct md as [| | | | | |d]; try discriminate Hmd.
    rewrite validate_tier_1_dict.
    destruct (shown_model_id w d) as [e|shown].
    + split; [repeat constructor|]. right. eauto.
    + split; [apply quiet_validation_report|]. left. eauto.
  - destruct (validate_tier_1_not_dict w md folder Hmd) as [e ->].
    split; [repeat constructor|]. right. eauto.
Qed.

Lemma validate_pass_framework (w : World) (md : py_value) (folder : string)
    (t : list event) :
  validate_tier_1 w md folder = (t, Ret true) →
  ∃ d s, md = PyDict d ∧ d !! "framework" = Some (PyStr s)
         ∧ s ∈ VALID_FRAMEWORKS.
Proof.
  intros H. apply validate_tier_1_returns in H as (d & shown & -> & _ & _ & Hok).
  symmetry in Hok. apply bool_decide_eq_true in Hok.
  unfold spec_errors in Hok.
  apply app_eq_nil in Hok as [_ Hok]. apply app_eq_nil in Hok as [_ Hok].
  apply app_eq_nil in Hok as [Hok _].
  unfold spec_framework_errors in Hok.
  destruct (decide (one_of d "framework" VALID_FRAMEWORKS))
    as [(s & Hs & Hin)|]; [|discriminate Hok].
  exists d, s. auto.
Qed.

Lemma load_metadata_cases (w : World) (model_path : path) :
  (∃ t, load_metadata w model_path = (t, Exit 1))
  ∨ (∃ t e, load_metadata w model_path = (t, Raise e))
  ∨ (∃ t md, load_metadata w model_path = (t, Ret md)).
Proof.
  destruct (fs_lookup (fs_root w) (model_path ++ ["metadata.yaml"]))
    as [[content|entries]|] eqn:E.
  - destruct (yaml_safe_load w content) as [msg|v] eqn:Ey.
    + left. rewrite (load_metadata_invalid w _ content msg E Ey). eauto.
    + right. right. rewrite (load_metadata_parsed w _ content v E Ey). eauto.
  - right. left. destruct (load_metadata_dir w _ entries E) as [e ->]. eauto.
  - left. rewrite (load_metadata_missing w _ E). eauto.
Qed.

(** ** Every way a run on an accepted folder can go *)

Lemma main_folder_cases (w : World) (argv : list string) :
  length argv = 2%nat → path_is_dir w (model_path_of w argv) = true →
  let model_path := model_path_of w argv in
  let hd := banner (path_name model_path) in
  (∃ t1, load_metadata w model_path = (t1, Exit 1)
         ∧ main w argv = (hd ++ t1, Exit 1))
  ∨ (∃ t1 e, load_metadata w model_path = (t1, Raise e)
             ∧ main w argv = (hd ++ t1, Raise e))
  ∨ (∃ t1 md, load_metadata w model_path = (t1, Ret md) ∧
       ((∃ t2 e, validate_tier_1 w md (path_name model_path) = (t2, Raise e)
                 ∧ main w argv = (hd ++ t1 ++ t2, Raise e))
        ∨ (∃ t2, validate_tier_1 w md (path_name model_path) = (t2, Ret false)
                 ∧ main w argv
                   = (hd ++ t1 ++ t2 ++
                      [Stdout (nl +:+ "ğŸš« PROMOTION BLOCKED: Tier-1 validation failed.")],
                      Exit 1))
        ∨ (∃ t2 s t4 ok,
             validate_tier_1 w md (path_name model_path) = (t2, Ret true)
             ∧ s ∈ VALID_FRAMEWORKS
             ∧ py_get md "framework" (PyStr "") = ([], Ret (PyStr s))
             ∧ smoke_test_model w model_path (PyStr s) = (t4, Ret ok)
             ∧ main w argv
               = (hd ++ t1 ++ t2 ++ t4 ++
                  [Stdout (nl +:+
                     (if ok
                      then "âœ… ALL VALIDATIONS PASSED. Model is eligible for promotion."
                      else "ğŸš« PROMOTION BLOCKED: Model artifact corruption detected."))],
                  Exit (if ok then 0 else 2))))).
Proof.
  intros H Hd model_path hd. rewrite (main_folder w argv H Hd).
  fold model_path. fold hd.
  destruct (load_metadata_cases w model_path)
    as [(t1 & E1)|[(t1 & e & E1)|(t1 & md & E1)]]; rewrite E1.
  - left. eauto.
  - right. left. eauto.
  - right. right. exists t1, md. split; [reflexivity|].
    destruct (validate_tier_1_cases w md (path_name model_path))
      as [_ [(t2 & [|] & E2)|(t2 & e & E2)]]; rewrite E2.
    + right. right.
      destruct (validate_pass_framework w md _ t2 E2) as (d & s & -> & Hs & Hin).
      assert (py_get (PyDict d) "framework" (PyStr "") = ([], Ret (PyStr s)))
        as E3 by (cbn; rewrite Hs; reflexivity).
      rewrite E3.
      destruct (smoke_test_model_returns w model_path s)
        as (t4 & ok & E4).
      rewrite E4. exists t2, s, t4, ok.
      repeat (split; [solve [auto]|]).
      destruct ok; reflexivity.
    + right. left. exists t2. split; reflexivity.
    + left. eauto.
Qed.

Lemma quiet_main (w : World) (argv : list string) : quiet (main w argv).1.
Proof.
  destruct (decide (length argv = 2%nat)) as [H|H];
    [|rewrite (main_usage w argv H); repeat constructor].
  destruct (path_exists w (model_path_of w argv)) eqn:He;
    [|rewrite (main_no_path w argv H He); repeat constructor].
  destruct (path_is_dir w (model_path_of w argv)) eqn:Hd;
    [|rewrite (main_not_dir w argv H He Hd); repeat constructor].
  pose proof (quiet_load_metadata w (model_path_of w argv)) as Hq1.
  destruct (main_folder_cases w argv H Hd)
    as [(t1 & E1 & ->)|[(t1 & e & E1 & ->)|(t1 & md & E1 & Hrest)]];
    rewrite E1 in Hq1; cbn [fst] in Hq1 |- *.
  - apply Forall_app. split; [repeat constructor|assumption].
  - apply Forall_app. split; [repeat constructor|assumption].
  - pose proof (proj1 (validate_tier_1_cases w md
                  (path_name (model_path_of w argv)))) as Hq2.
    destruct Hrest as [(t2 & e & E2 & ->)|[(t2 & E2 & ->)
                      |(t2 & s & t4 & ok & E2 & Hs & _ & E4 & ->)]];
      rewrite E2 in Hq2; cbn [fst] in Hq2 |- *.
    + repeat apply Forall_app_2; solve [assumption|repeat constructor].
    + repeat apply Forall_app_2; solve [assumption|repeat constructor].
    + destruct (smoke_test_model_valid w (model_path_of w argv) s Hs) as [Hq4 _].
      rewrite E4 in Hq4. cbn [fst] in Hq4.
      repeat apply Forall_app_2; try assumption; [repeat constructor|].
      destruct ok; repeat constructor.
Qed.

(** C8. Whenever the Contract Validator returns pass, the metadata is a
    mapping whose framework is one of pytorch, tensorflow, onnx, and that
    very value is what main reads back and hands to the Smoke Tester; on
    such a value the dispatch takes one of the three probes.  Hence no run of
    the script, in any world and on any arguments, ever prints the line of
    the fallback arm. *)
Theorem fallback_arm_unreachable (w : World) :
  (∀ md folder t,
     validate_tier_1 w md folder = (t, Ret true) →
     ∃ s, s ∈ VALID_FRAMEWORKS
          ∧ py_get md "framework" (PyStr "") = ([], Ret (PyStr s)))
  ∧ (∀ model_path s,
       s ∈ VALID_FRAMEWORKS →
       ∃ probe,
         probe ∈ [smoke_pytorch w model_path; smoke_tensorflow w model_path;
                  smoke_onnx w model_path]
         ∧ smoke_test_model w model_path (PyStr s)
           = M_bind (λ _, probe)
               (print "ğŸ”¥ Running Lightweight Smoke Test..."))
  ∧ (∀ argv ev, ev ∈ (run w argv).1 → is_fallback_warning ev = false).
Proof.
  split; [|split].
  - intros md folder t Hpass.
    destruct (validate_pass_framework w md folder t Hpass)
      as (d & s & -> & Hs & Hin).
    exists s. split; [assumption|]. cbn. rewrite Hs. reflexivity.
  - intros model_path s Hs. unfold VALID_FRAMEWORKS in Hs.
    repeat (apply elem_of_cons in Hs as [->|Hs]); [ | | |inversion Hs].
    + exists (smoke_pytorch w model_path). split; [set_solver|reflexivity].
    + exists (smoke_tensorflow w model_path). split; [set_solver|reflexivity].
    + exists (smoke_onnx w model_path). split; [set_solver|reflexivity].
  - intros argv ev Hin. pose proof (quiet_main w argv) as Hq.
    unfold run in Hin. destruct (main w argv) as [t o]. cbn [fst] in Hin, Hq.
    exact (proj1 (Forall_forall _ _) Hq ev Hin).
Qed.

(** ** The claims about the Orchestrator *)

Lemma run_eq (w : World) (argv : list string) :
  run w argv = ((main w argv).1, exit_status (main w argv).2).
Proof. unfold run. destruct (main w argv). reflexivity. Qed.




(** C6. On a model folder whose metadata.yaml does not exist, or exists but
    is rejected by the YAML parser, the run ends with exit status 1 right
    after the fatal message of the loader: contract validation has not
    begun and the smoke test is not run. *)
Theorem bad_declaration_is_fatal (w : World) (argv : list string) :
  let model_path := model_path_of w argv in
  let declaration := fs_lookup (fs_root w) (model_path ++ ["metadata.yaml"]) in
  length argv = 2%nat → path_is_dir w model_path = true →
  (declaration = None
   ∨ ∃ content msg, declaration = Some (File content)
                    ∧ yaml_safe_load w content = inl msg) →
  ∃ fatal,
    run w argv = (banner (path_name model_path) ++ fatal, 1)
    ∧ (fatal = [Stdout ("âŒ FATAL: metadata.yaml not found in "
                        +:+ path_str model_path)]
       ∨ ∃ content msg,
           fatal = [YamlSafeLoad content;
                    Stdout ("âŒ FATAL: Invalid YAML in metadata.yaml: " +:+ msg)])
    ∧ ¬ validation_began (banner (path_name model_path) ++ fatal)
    ∧ ¬ smoke_test_ran (banner (path_name model_path) ++ fatal).
Proof.
  cbv zeta. intros H Hd Hbad.
  rewrite run_eq, (main_folder w argv H Hd). cbv zeta.
  destruct Hbad as [E|(content & msg & E & Ey)].
  - rewrite (load_metadata_missing w _ E). eexists. split; [reflexivity|].
    split; [left; reflexivity|].
    unfold validation_began, smoke_test_ran, banner.
    split; intros Hin; repeat (apply elem_of_cons in Hin as [Hin|Hin];
      [discriminate Hin|]); inversion Hin.
  - rewrite (load_metadata_invalid w _ content msg E Ey).
    eexists. split; [reflexivity|]. split; [right; eauto|].
    unfold validation_began, smoke_test_ran, banner.
    split; intros Hin; repeat (apply elem_of_cons in Hin as [Hin|Hin];
      [discriminate Hin|]); inversion Hin.
Qed.

(** C7 (the code departs from it).  The folder [/models/seq] of the sample
    world holds a metadata.yaml with the well-formed YAML text [- a].  The
    loader returns the list PyYAML builds for it, not a mapping; the
    Contract Validator then raises AttributeError on [metadata.get] instead
    of reporting contract errors, and the run ends on the traceback. *)
Theorem load_metadata_returns_a_list :
  load_metadata sample_world ["models"; "seq"]
  = ([YamlSafeLoad "- a"], Ret (PyList [PyStr "a"]))
  ∧ validate_tier_1 sample_world (PyList [PyStr "a"]) "seq"
    = ([Stdout "ğŸ” Validating Tier-1 (Blocking) fields..."],
       Raise (Exn AttributeError "'list' object has no attribute 'get'"))
  ∧ run sample_world ["validate_model.py"; "/models/seq"]
    = (banner "seq" ++ [YamlSafeLoad "- a";
                        Stdout "ğŸ” Validating Tier-1 (Blocking) fields..."],
       1).
Proof. repeat split; vm_compute; reflexivity. Qed.

(** ** The theorems at work on the sample world *)


Lemma pytorch_smoke_test_witness :
  let header := Stdout "ğŸ”¥ Running Lightweight Smoke Test..." in
  let a := ["models"; "model_b"; "a.pt"] in
  let b := ["models"; "model_b"; "b.pt"] in
  let c := ["models"; "model_b"; "c.pth"] in
  let good := ["models"; "model_c"; "good.pt"] in
  let failure := Exn LibraryError "PytorchStreamReader failed reading zip archive" in
  let absent := Exn ImportError "No module named 'torch'" in
  (* model_a holds no weight file *)
  (pytorch_files sample_world ["models"; "model_a"] = []
   ∧ smoke_test_model sample_world ["models"; "model_a"] (PyStr "pytorch")
     = ([header; Stdout "âŒ No PyTorch model files (.pt/.pth) found"],
        Ret false))
  (* model_c holds one sound file *)
  ∧ (pytorch_files sample_world ["models"; "model_c"] = [good]
     ∧ torch sample_world = inr sample_torch
     ∧ Forall (λ mf, torch_load sample_torch mf "cpu" true = None) [good]
     ∧ smoke_test_model sample_world ["models"; "model_c"] (PyStr "pytorch")
       = (header :: torch_attempts [good]
            ++ [Stdout "âœ… Smoke Test PASSED (PyTorch)"], Ret true))
  (* model_b: b.pt is corrupt, c.pth is never loaded, old/d.pt is not seen *)
  ∧ (pytorch_files sample_world ["models"; "model_b"] = [a] ++ b :: [c]
     ∧ Forall (λ mf, torch_load sample_torch mf "cpu" true = None) [a]
     ∧ torch_load sample_torch b "cpu" true = Some failure
     ∧ smoke_test_model sample_world ["models"; "model_b"] (PyStr "pytorch")
       = (header :: torch_attempts ([a] ++ [b])
            ++ [Stdout ("âŒ Smoke Test FAILED: " +:+ exn_msg failure)],
          Ret false))
  (* no torch on the machine *)
  ∧ (pytorch_files sample_world_no_torch ["models"; "model_c"] ≠ []
     ∧ torch sample_world_no_torch = inl absent
     ∧ smoke_test_model sample_world_no_torch ["models"; "model_c"] (PyStr "pytorch")
       = ([header; Stdout ("âŒ Smoke Test FAILED: " +:+ exn_msg absent)],
          Ret false))
  (* a pass accounts for every file *)
  ∧ (smoke_test_model sample_world ["models"; "model_c"] (PyStr "pytorch")
     = ([header; Stdout "  Loading good.pt..."; TorchLoad good "cpu" true;
         Stdout "âœ… Smoke Test PASSED (PyTorch)"], Ret true)
     ∧ ∃ lib, torch sample_world = inr lib
              ∧ Forall (λ mf, torch_load lib mf "cpu" true = None
                              ∧ TorchLoad mf "cpu" true
                                ∈ [header; Stdout "  Loading good.pt...";
                                   TorchLoad good "cpu" true;
                                   Stdout "âœ… Smoke Test PASSED (PyTorch)"])
                  (pytorch_files sample_world ["models"; "model_c"])).
Proof.
  intros header a b c good failure absent.
  destruct (pytorch_smoke_test sample_world ["models"; "model_a"])
    as (_ & Hnone & _).
  destruct (pytorch_smoke_test sample_world ["models"; "model_c"])
    as (_ & _ & Hall & _ & _ & Hpass).
  destruct (pytorch_smoke_test sample_world ["models"; "model_b"])
    as (_ & _ & _ & Hstop & _).
  destruct (pytorch_smoke_test sample_world_no_torch ["models"; "model_c"])
    as (_ & _ & _ & _ & Hno & _).
  assert (pytorch_files sample_world ["models"; "model_c"] ≠ []) as Hne
    by (vm_compute; intros H; discriminate H).
  assert (Forall (λ mf, torch_load sample_torch mf "cpu" true = None) [good])
    as Hgood by (repeat constructor).
  assert (Forall (λ mf, torch_load sample_torch mf "cpu" true = None) [a])
    as Ha by (repeat constructor).
  split; [split; [reflexivity|exact (Hnone eq_refl)]|].
  split; [repeat (split; [first [reflexivity|exact Hgood]|]);
          exact (Hall sample_torch Hne eq_refl Hgood)|].
  split; [repeat (split; [first [reflexivity|exact Ha]|]);
          exact (Hstop sample_torch [a] b [c] failure eq_refl eq_refl Ha eq_refl)|].
  split; [split; [exact Hne|split; [reflexivity|exact (Hno absent Hne eq_refl)]]|].
  split; [reflexivity|].
  apply (Hpass _ eq_refl).
Defined.

Lemma fallback_arm_unreachable_witness :
  let md := PyDict (sample_metadata "model_a" "onnx") in
  let argv := [prog; "/models/model_a"] in
  (validate_tier_1 sample_world md "model_a" = (validation_report [], Ret true)
   ∧ ∃ s, s ∈ VALID_FRAMEWORKS
          ∧ py_get md "framework" (PyStr "") = ([], Ret (PyStr s)))
  ∧ ("onnx" ∈ VALID_FRAMEWORKS
     ∧ ∃ probe,
         probe ∈ [smoke_pytorch sample_world ["models"; "model_a"];
                  smoke_tensorflow sample_world ["models"; "model_a"];
                  smoke_onnx sample_world ["models"; "model_a"]]
         ∧ smoke_test_model sample_world ["models"; "model_a"] (PyStr "onnx")
           = M_bind (λ _, probe)
               (print "ğŸ”¥ Running Lightweight Smoke Test..."))
  ∧ (Stdout "âœ… Smoke Test PASSED (ONNX)" ∈ (run sample_world argv).1
     ∧ is_fallback_warning (Stdout "âœ… Smoke Test PASSED (ONNX)") = false).
Proof.
  intros md argv.
  destruct (fallback_arm_unreachable sample_world) as (Hpin & Harm & Hrun).
  assert (validate_tier_1 sample_world md "model_a"
          = (validation_report [], Ret true)) as Hv by (vm_compute; reflexivity).
  assert ("onnx" ∈ VALID_FRAMEWORKS) as Hin
    by (apply (proj1 (bool_decide_eq_true _)); vm_compute; reflexivity).
  assert (Stdout "âœ… Smoke Test PASSED (ONNX)" ∈ (run sample_world argv).1)
    as Hev by (vm_compute; repeat constructor).
  split; [split; [exact Hv|exact (Hpin md "model_a" _ Hv)]|].
  split; [split; [exact Hin|exact (Harm ["models"; "model_a"] "onnx" Hin)]|].
  split; [exact Hev|exact (Hrun argv _ Hev)].
Defined.




Lemma bad_declaration_is_fatal_witness :
  let missing := [prog; "/models/no_meta"] in
  let broken := [prog; "/models/bad_yaml"] in
  (length missing = 2%nat
   ∧ path_is_dir sample_world (model_path_of sample_world missing) = true
   ∧ fs_lookup sample_fs (model_path_of sample_world missing ++ ["metadata.yaml"])
     = None
   ∧ ∃ fatal, run sample_world missing = (banner "no_meta" ++ fatal, 1)
              ∧ ¬ validation_began (banner "no_meta" ++ fatal)
              ∧ ¬ smoke_test_ran (banner "no_meta" ++ fatal))
  ∧ (length broken = 2%nat
     ∧ path_is_dir sample_world (model_path_of sample_world broken) = true
     ∧ (∃ content msg,
          fs_lookup sample_fs (model_path_of sample_world broken ++ ["metadata.yaml"])
          = Some (File content)
          ∧ sample_yaml_safe_load content = inl msg)
     ∧ ∃ fatal, run sample_world broken = (banner "bad_yaml" ++ fatal, 1)
                ∧ ¬ validation_began (banner "bad_yaml" ++ fatal)
                ∧ ¬ smoke_test_ran (banner "bad_yaml" ++ fatal)).
Proof.
  intros missing broken. split.
  - split; [reflexivity|]. split; [reflexivity|]. split; [reflexivity|].
    destruct (bad_declaration_is_fatal sample_world missing eq_refl eq_refl
                (or_introl eq_refl)) as (fatal & Hrun & _ & Hv & Hs).
    exists fatal. auto.
  - assert (∃ content msg,
      fs_lookup sample_fs (model_path_of sample_world broken ++ ["metadata.yaml"])
      = Some (File content)
      ∧ sample_yaml_safe_load content = inl msg) as Hbad
      by (eexists _, _; split; reflexivity).
    split; [reflexivity|]. split; [reflexivity|]. split; [exact Hbad|].
    destruct (bad_declaration_is_fatal sample_world broken eq_refl eq_refl
                (or_intror Hbad)) as (fatal & Hrun & _ & Hv & Hs).
    exists fatal. auto.
Defined.

(** * Further properties of the script *)

(** ** The Contract Validator beyond the claims *)

Lemma check_field_raises_TypeError (md : py_value) (errors : list string)
    (item : string * py_type) (t : list event) (e : exn) :
  is_dict md = false → check_field md errors item = (t, Raise e) →
  exn_type e = TypeError.
Proof.
  intros Hmd. destruct item as [field ty].
  destruct md as [| | | | s | l | d]; try discriminate Hmd;
    unfold check_field, py_contains; munfold; cbn [M_bind app];
    try (intros H; injection H as <- <-; reflexivity).
  - destruct (String.index 0 field s); cbn [negb M_bind app py_getitem];
      intros H; [injection H as <- <-; reflexivity|discriminate H].
  - destruct (existsb _ l); cbn [negb M_bind app py_getitem];
      intros H; [injection H as <- <-; reflexivity|discriminate H].
Qed.

Lemma field_loop_raises_TypeError (md : py_value)
    (items : list (string * py_type)) (errors : list string)
    (t : list event) (e : exn) :
  is_dict md = false → for_acc items (check_field md) errors = (t, Raise e) →
  exn_type e = TypeError.
Proof.
  intros Hmd. revert errors.
  induction items as [|item items IH]; intros errors; [discriminate|].
  cbn [for_acc]. munfold.
  destruct (check_field_no_exit md errors item Hmd) as [[e' E]|[errs E]].
  - rewrite E. cbn [M_bind]. intros H. injection H as <- <-.
    exact (check_field_raises_TypeError md errors item _ _ Hmd E).
  - rewrite E. cbn [M_bind app].
    destruct (for_acc items (check_field md) errs) as [t' o] eqn:E'.
    intros H. injection H as <- ->. exact (IH errs E').
Qed.

Lemma tier_1_errors_raises (w : World) (md : py_value) (folder : string) :
  is_dict md = false →
  ∃ e, tier_1_errors w md folder = ([], Raise e)
       ∧ (exn_type e = TypeError ∨ exn_type e = AttributeError).
Proof.
  intros Hmd. unfold tier_1_errors. munfold.
  destruct (field_loop_no_exit md TIER_1_FIELDS [] Hmd) as [[e E]|[errs E]].
  - rewrite E. exists e. split; [reflexivity|]. left.
    exact (field_loop_raises_TypeError md _ _ _ _ Hmd E).
  - rewrite E. destruct md; try discriminate Hmd;
      (eexists; split; [reflexivity|right; reflexivity]).
Qed.

(** X1. When metadata.yaml is well-formed YAML whose top level is not a
    mapping (an empty file, a scalar, a sequence), the Contract Validator
    reports nothing: right after its first line it raises TypeError or
    AttributeError, nothing catches it, and the run ends with status 1
    without a contract error, a banner or a smoke test. *)
Theorem non_mapping_metadata_crashes (w : World) (argv : list string)
    (content : string) (v : py_value) :
  let model_path := model_path_of w argv in
  let header := Stdout "ğŸ” Validating Tier-1 (Blocking) fields..." in
  length argv = 2%nat → path_is_dir w model_path = true →
  fs_lookup (fs_root w) (model_path ++ ["metadata.yaml"]) = Some (File content) →
  yaml_safe_load w content = inr v →
  is_dict v = false →
  ∃ e, (exn_type e = TypeError ∨ exn_type e = AttributeError)
       ∧ validate_tier_1 w v (path_name model_path) = ([header], Raise e)
       ∧ main w argv
         = (banner (path_name model_path) ++ [YamlSafeLoad content; header],
            Raise e)
       ∧ (run w argv).2 = 1.
Proof.
  cbv zeta. intros H Hd E Ey Hv.
  destruct (tier_1_errors_raises w v (path_name (model_path_of w argv)) Hv)
    as (e & Ee & Hclass).
  assert (validate_tier_1 w v (path_name (model_path_of w argv))
          = ([Stdout "ğŸ” Validating Tier-1 (Blocking) fields..."], Raise e))
    as Ev by (unfold validate_tier_1; munfold; rewrite Ee; reflexivity).
  assert (main w argv
          = (banner (path_name (model_path_of w argv))
               ++ [YamlSafeLoad content;
                   Stdout "ğŸ” Validating Tier-1 (Blocking) fields..."],
             Raise e)) as Em.
  { rewrite (main_folder w argv H Hd). cbv zeta.
    rewrite (load_metadata_parsed w _ content v E Ey), Ev. reflexivity. }
  exists e. repeat (split; [assumption|]). rewrite run_eq, Em. reflexivity.
Qed.







(** X16. When a required field is absent from the mapping, the later checks
    are not skipped: they read the absent field as None.  An absent
    model_id always yields both its missing-field error and the mismatch
    error that shows None.  An absent framework (or required_hardware)
    yields both its missing-field error and its domain error whenever
    [str()] can print the declared model_id. *)
Theorem printable_absent_field_is_flagged_twice (w : World) (d : gmap string py_value)
    (folder : string) :
  (d !! "model_id" = None →
   ∃ errors,
     tier_1_errors w (PyDict d) folder = ([], Ret errors)
     ∧ py_get (PyDict d) "model_id" PyNone = ([], Ret PyNone)
     ∧ msg_missing "model_id" ∈ errors
     ∧ msg_model_id "None" folder ∈ errors)
  ∧ (∀ shown,
       shown_model_id w d = inr shown →
       ∃ errors,
         tier_1_errors w (PyDict d) folder = ([], Ret errors)
         ∧ (d !! "framework" = None →
            py_get (PyDict d) "framework" PyNone = ([], Ret PyNone)
            ∧ msg_missing "framework" ∈ errors ∧ msg_framework ∈ errors)
         ∧ (d !! "required_hardware" = None →
            py_get (PyDict d) "required_hardware" PyNone = ([], Ret PyNone)
            ∧ msg_missing "required_hardware" ∈ errors
            ∧ msg_hardware ∈ errors)).
Proof.
  split.
  - intros Habs.
    assert (shown_model_id w d = inr "None") as Hshown
      by (unfold shown_model_id; rewrite Habs; reflexivity).
    exists (spec_errors "None" d folder).
    rewrite tier_1_errors_dict, Hshown. split; [reflexivity|].
    split; [cbn; rewrite Habs; reflexivity|].
    unfold spec_errors, spec_model_id_errors. cbn [TIER_1_FIELDS map concat].
    rewrite decide_False by congruence.
    unfold spec_field_errors at 1. cbn [fst snd]. rewrite Habs.
    split; [apply elem_of_app; left; apply list_elem_of_here|].
    apply elem_of_app. right. apply list_elem_of_here.
  - intros shown Hshown. exists (spec_errors shown d folder).
    rewrite tier_1_errors_dict, Hshown. split; [reflexivity|].
    unfold spec_errors. cbn [TIER_1_FIELDS map concat].
    split; intros Habs; (split; [cbn; rewrite Habs; reflexivity|]).
    + unfold spec_framework_errors.
      rewrite decide_False by (intros (s & Hs & _); congruence).
      unfold spec_field_errors at 3. cbn [fst snd]. rewrite Habs.
      split; [apply elem_of_app; left; do 2 apply elem_of_app, or_intror;
              apply elem_of_app; left; apply list_elem_of_here|].
      do 2 (apply elem_of_app; right).
      apply elem_of_app. left. apply list_elem_of_here.
    + unfold spec_hardware_errors.
      rewrite decide_False by (intros (s & Hs & _); congruence).
      unfold spec_field_errors at 5. cbn [fst snd]. rewrite Habs.
      split; [apply elem_of_app; left; do 4 apply elem_of_app, or_intror;
              apply elem_of_app; left; apply list_elem_of_here|].
      do 3 (apply elem_of_app; right). apply list_elem_of_here.
Qed.

Lemma spec_field_errors_nil (d : gmap string py_value) (field : string) :
  spec_field_errors d (field, TStr) = [] ↔ ∃ s, d !! field = Some (PyStr s).
Proof.
  unfold spec_field_errors. cbn [fst snd]. split.
  - destruct (d !! field) as [v|]; [|discriminate].
    destruct (isinstance v TStr) eqn:E; [|discriminate].
    apply isinstance_str in E as [s ->]. eauto.
  - intros [s ->]. reflexivity.
Qed.

(** X3. The Contract Validator returns pass exactly when the metadata is a
    mapping in which model_id is the folder name, git_hash and
    min_app_version hold text, framework is one of pytorch, tensorflow, onnx
    and required_hardware is one of mps, cpu, cuda. *)
Theorem validate_tier_1_pass_iff (w : World) (md : py_value) (folder : string) :
  (∃ t, validate_tier_1 w md folder = (t, Ret true)) ↔
  ∃ d, md = PyDict d
       ∧ d !! "model_id" = Some (PyStr folder)
       ∧ (∃ s, d !! "git_hash" = Some (PyStr s))
       ∧ one_of d "framework" VALID_FRAMEWORKS
       ∧ (∃ s, d !! "min_app_version" = Some (PyStr s))
       ∧ one_of d "required_hardware" VALID_HARDWARE.
Proof.
  split.
  - intros [t H].
    apply validate_tier_1_returns in H as (d & shown & -> & _ & _ & Hok).
    symmetry in Hok. apply bool_decide_eq_true in Hok.
    unfold spec_errors in Hok. cbn [TIER_1_FIELDS map concat] in Hok.
    apply app_eq_nil in Hok as [Hfields Hok].
    apply app_eq_nil in Hfields as [Hf1 Hfields].
    apply app_eq_nil in Hfields as [Hf2 Hfields].
    apply app_eq_nil in Hfields as [Hf3 Hfields].
    apply app_eq_nil in Hfields as [Hf4 Hfields].
    apply app_eq_nil in Hfields as [Hf5 _].
    apply app_eq_nil in Hok as [Hmid Hok].
    apply app_eq_nil in Hok as [Hfw Hhw].
    exists d. split; [reflexivity|].
    split; [unfold spec_model_id_errors in *; case_decide; [assumption|discriminate]|].
    split; [apply spec_field_errors_nil; assumption|].
    split; [unfold spec_framework_errors in *; case_decide; [assumption|discriminate]|].
    split; [apply spec_field_errors_nil; assumption|].
    unfold spec_hardware_errors in *. case_decide; [assumption|discriminate].
  - intros (d & -> & Hid & Hgit & Hfw & Hver & Hhw).
    exists (validation_report (spec_errors folder d folder)).
    rewrite (validate_tier_1_prints w d folder folder
               (shown_model_id_matching w d folder Hid)).
    f_equal. f_equal. apply bool_decide_eq_true.
    unfold spec_errors. cbn [TIER_1_FIELDS map concat].
    rewrite (proj2 (spec_field_errors_nil d "model_id")) by eauto.
    rewrite (proj2 (spec_field_errors_nil d "git_hash") Hgit).
    rewrite (proj2 (spec_field_errors_nil d "framework"))
      by (destruct Hfw as (s & ? & _); eauto).
    rewrite (proj2 (spec_field_errors_nil d "min_app_version") Hver).
    rewrite (proj2 (spec_field_errors_nil d "required_hardware"))
      by (destruct Hhw as (s & ? & _); eauto).
    unfold spec_model_id_errors, spec_framework_errors, spec_hardware_errors.
    rewrite !decide_True by assumption. reflexivity.
Qed.

Lemma spec_errors_ext (shown : string) (d1 d2 : gmap string py_value)
    (folder : string) :
  (∀ field, field ∈ tier_1_keys → d1 !! field = d2 !! field) →
  spec_errors shown d1 folder = spec_errors shown d2 folder.
Proof.
  intros H.
  assert (d1 !! "model_id" = d2 !! "model_id") as H1
    by (apply H; unfold tier_1_keys; set_solver).
  assert (d1 !! "git_hash" = d2 !! "git_hash") as H2
    by (apply H; unfold tier_1_keys; set_solver).
  assert (d1 !! "framework" = d2 !! "framework") as H3
    by (apply H; unfold tier_1_keys; set_solver).
  assert (d1 !! "min_app_version" = d2 !! "min_app_version") as H4
    by (apply H; unfold tier_1_keys; set_solver).
  assert (d1 !! "required_hardware" = d2 !! "required_hardware") as H5
    by (apply H; unfold tier_1_keys; set_solver).
  clear H. unfold spec_errors. f_equal; [|f_equal; [|f_equal]].
  - cbn [TIER_1_FIELDS map concat]. unfold spec_field_errors. cbn [fst snd].
    rewrite H1, H2, H3, H4, H5. reflexivity.
  - unfold spec_model_id_errors.
    rewrite (decide_ext (d1 !! "model_id" = Some (PyStr folder))
                        (d2 !! "model_id" = Some (PyStr folder)))
      by (rewrite H1; reflexivity).
    reflexivity.
  - unfold spec_framework_errors. apply decide_ext. unfold one_of.
    rewrite H3. reflexivity.
  - unfold spec_hardware_errors. apply decide_ext. unfold one_of.
    rewrite H5. reflexivity.
Qed.

(** X4. The Contract Validator reads the five required fields and nothing
    else: adding, changing or removing any other field of the mapping
    changes neither the errors, nor what is printed, nor the outcome. *)
Theorem extra_fields_are_ignored (w : World) (d : gmap string py_value)
    (folder key : string) (v : py_value) :
  key ∉ tier_1_keys →
  validate_tier_1 w (PyDict (<[key:=v]> d)) folder
  = validate_tier_1 w (PyDict d) folder
  ∧ validate_tier_1 w (PyDict (delete key d)) folder
    = validate_tier_1 w (PyDict d) folder.
Proof.
  intros Hkey.
  assert (key ≠ "model_id") as Hid
    by (intros ->; apply Hkey; unfold tier_1_keys; apply list_elem_of_here).
  rewrite !validate_tier_1_dict. unfold shown_model_id.
  rewrite lookup_insert_ne, lookup_delete_ne by assumption.
  destruct (py_str_result w (default PyNone (d !! "model_id"))) as [e|shown];
    [split; reflexivity|].
  split.
  - rewrite (spec_errors_ext shown (<[key:=v]> d) d folder); [reflexivity|].
    intros field Hfield. apply lookup_insert_ne. intros ->. contradiction.
  - rewrite (spec_errors_ext shown (delete key d) d folder); [reflexivity|].
    intros field Hfield. apply lookup_delete_ne. intros ->. contradiction.
Qed.

(** ** The tensorflow probe *)

Lemma smoke_test_model_tensorflow (w : World) (model_path : path) :
  smoke_test_model w model_path (PyStr "tensorflow")
  = (Stdout "ğŸ”¥ Running Lightweight Smoke Test..."
       :: (smoke_tensorflow w model_path).1,
     (smoke_tensorflow w model_path).2).
Proof.
  unfold smoke_test_model. munfold. cbn [py_eq_str M_bind].
  rewrite bool_decide_false by discriminate.
  rewrite bool_decide_true by reflexivity.
  destruct (smoke_tensorflow w model_path). reflexivity.
Qed.

Lemma smoke_tensorflow_cases (w : World) (model_path : path) :
  smoke_tensorflow w model_path =
  match tensorflow w with
  | inl e => ([Stdout ("âŒ Smoke Test FAILED: " +:+ exn_msg e)], Ret false)
  | inr lib =>
      if path_exists w (model_path ++ ["saved_model"]) then
        match tf_saved_model_load lib (path_str (model_path ++ ["saved_model"])) with
        | None =>
            ([TfSavedModelLoad (path_str (model_path ++ ["saved_model"]));
              Stdout "âœ… Smoke Test PASSED (TensorFlow)"], Ret true)
        | Some e =>
            ([TfSavedModelLoad (path_str (model_path ++ ["saved_model"]));
              Stdout ("âŒ Smoke Test FAILED: " +:+ exn_msg e)], Ret false)
        end
      else ([Stdout "âŒ No saved_model directory found"], Ret false)
  end.
Proof.
  unfold smoke_tensorflow, import_module, call. munfold.
  destruct (tensorflow w) as [e|lib]; [reflexivity|]. cbn [M_bind app].
  destruct (path_exists w _); [|reflexivity].
  destruct (tf_saved_model_load lib _); reflexivity.
Qed.

(** X5. For a tensorflow model the smoke test passes exactly when tensorflow
    can be imported, something named [saved_model] exists in the folder
    (the script asks whether it exists, not whether it is a directory) and
    loading it raises nothing.  A failed import is reported before the
    folder is looked at; without [saved_model] no load is attempted; a load
    that raises fails the test with the message of the exception. *)
Theorem tensorflow_smoke_test (w : World) (model_path : path) :
  let dir := model_path ++ ["saved_model"] in
  let smoke := smoke_test_model w model_path (PyStr "tensorflow") in
  let header := Stdout "ğŸ”¥ Running Lightweight Smoke Test..." in
  (∀ e, tensorflow w = inl e →
     smoke = ([header; Stdout ("âŒ Smoke Test FAILED: " +:+ exn_msg e)],
              Ret false))
  ∧ (∀ lib, tensorflow w = inr lib → path_exists w dir = false →
       smoke = ([header; Stdout "âŒ No saved_model directory found"],
                Ret false))
  ∧ (∀ lib e, tensorflow w = inr lib → path_exists w dir = true →
       tf_saved_model_load lib (path_str dir) = Some e →
       smoke = ([header; TfSavedModelLoad (path_str dir);
                 Stdout ("âŒ Smoke Test FAILED: " +:+ exn_msg e)], Ret false))
  ∧ ((∃ t, smoke = (t, Ret true)) ↔
     ∃ lib, tensorflow w = inr lib ∧ path_exists w dir = true
            ∧ tf_saved_model_load lib (path_str dir) = None)
  ∧ (∀ t, smoke = (t, Ret true) →
       t = [header; TfSavedModelLoad (path_str dir);
            Stdout "âœ… Smoke Test PASSED (TensorFlow)"]).
Proof.
  cbv zeta. rewrite smoke_test_model_tensorflow, smoke_tensorflow_cases.
  split; [intros e ->; reflexivity|].
  split; [intros lib -> ->; reflexivity|].
  split; [intros lib e -> -> ->; reflexivity|].
  split; [split|].
  - intros [t H]. destruct (tensorflow w) as [e|lib]; [discriminate H|].
    destruct (path_exists w _); [|discriminate H].
    destruct (tf_saved_model_load lib _) eqn:E; [discriminate H|]. eauto.
  - intros (lib & -> & -> & ->). eexists. reflexivity.
  - intros t H. destruct (tensorflow w) as [e|lib]; [discriminate H|].
    destruct (path_exists w _); [|discriminate H].
    destruct (tf_saved_model_load lib _) eqn:E; [discriminate H|].
    injection H as <-. reflexivity.
Qed.

(** ** The onnx probe *)

Lemma smoke_test_model_onnx (w : World) (model_path : path) :
  smoke_test_model w model_path (PyStr "onnx")
  = (Stdout "ğŸ”¥ Running Lightweight Smoke Test..."
       :: (smoke_onnx w model_path).1,
     (smoke_onnx w model_path).2).
Proof.
  unfold smoke_test_model. munfold. cbn [py_eq_str M_bind].
  rewrite !bool_decide_false by discriminate.
  rewrite bool_decide_true by reflexivity.
  destruct (smoke_onnx w model_path). reflexivity.
Qed.

Lemma check_onnx_file_eq (lib : OnnxLib) (mf : path) :
  check_onnx_file lib mf
  = (Stdout ("  Checking " +:+ path_name mf +:+ "...")
       :: OnnxLoad (path_str mf)
       :: match onnx_load lib (path_str mf) with
          | Some _ => []
          | None => [OnnxCheckModel (path_str mf)]
          end,
     match onnx_load lib (path_str mf) with
     | Some e => Raise e
     | None =>
         match onnx_check_model lib (path_str mf) with
         | Some e => Raise e
         | None => Ret ()
         end
     end).
Proof.
  unfold check_onnx_file, call. munfold.
  destruct (onnx_load lib _); [reflexivity|].
  destruct (onnx_check_model lib _); reflexivity.
Qed.

Lemma onnx_loop_all (lib : OnnxLib) (files : list path) :
  Forall (onnx_sound lib) files →
  for_each files (check_onnx_file lib) = (onnx_attempts files, Ret ()).
Proof.
  induction 1 as [|mf files [Hl Hc] _ IH]; [reflexivity|].
  cbn [for_each]. rewrite IH, check_onnx_file_eq, Hl, Hc. reflexivity.
Qed.

Lemma onnx_loop_stops (lib : OnnxLib) (pre post : list path) (f : path)
    (tf : list event) (e : exn) :
  Forall (onnx_sound lib) pre →
  check_onnx_file lib f = (tf, Raise e) →
  for_each (pre ++ f :: post) (check_onnx_file lib)
  = (onnx_attempts pre ++ tf, Raise e).
Proof.
  intros Hpre Hf. induction Hpre as [|mf pre [Hl Hc] _ IH].
  - cbn [app for_each]. rewrite Hf. reflexivity.
  - cbn [app for_each]. rewrite IH, check_onnx_file_eq, Hl, Hc. reflexivity.
Qed.

Lemma first_unsound (lib : OnnxLib) (files : list path) :
  Forall (onnx_sound lib) files
  ∨ ∃ pre f post e,
      files = pre ++ f :: post ∧ Forall (onnx_sound lib) pre
      ∧ (onnx_load lib (path_str f) = Some e
         ∨ (onnx_load lib (path_str f) = None
            ∧ onnx_check_model lib (path_str f) = Some e)).
Proof.
  induction files as [|mf files IH]; [left; constructor|].
  destruct (onnx_load lib (path_str mf)) as [e|] eqn:El.
  { right. exists [], mf, files, e. auto. }
  destruct (onnx_check_model lib (path_str mf)) as [e|] eqn:Ec.
  { right. exists [], mf, files, e. auto. }
  destruct IH as [Hall|(pre & f & post & e & -> & Hpre & Hf)].
  - left. constructor; [split|]; assumption.
  - right. exists (mf :: pre), f, post, e.
    split; [reflexivity|]. split; [|assumption].
    constructor; [split|]; assumption.
Qed.

Lemma smoke_onnx_no_lib (w : World) (model_path : path) (e : exn) :
  onnx w = inl e →
  smoke_onnx w model_path
  = ([Stdout ("âŒ Smoke Test FAILED: " +:+ exn_msg e)], Ret false).
Proof. intros H. unfold smoke_onnx. rewrite H. reflexivity. Qed.

Lemma smoke_onnx_none (w : World) (model_path : path) (lib : OnnxLib) :
  onnx w = inr lib → path_glob w model_path "*.onnx" = [] →
  smoke_onnx w model_path
  = ([Stdout "âŒ No ONNX model files (.onnx) found"], Ret false).
Proof. intros H Hnil. unfold smoke_onnx. rewrite H, Hnil. reflexivity. Qed.

Lemma smoke_onnx_all (w : World) (model_path : path) (lib : OnnxLib) :
  onnx w = inr lib → path_glob w model_path "*.onnx" ≠ [] →
  Forall (onnx_sound lib) (path_glob w model_path "*.onnx") →
  smoke_onnx w model_path
  = (onnx_attempts (path_glob w model_path "*.onnx")
       ++ [Stdout "âœ… Smoke Test PASSED (ONNX)"], Ret true).
Proof.
  intros H Hne Hall. unfold smoke_onnx. rewrite H.
  pose proof (onnx_loop_all lib _ Hall) as Hloop.
  destruct (path_glob w model_path "*.onnx") as [|mf files]; [contradiction|].
  unfold import_module. munfold. cbn [M_bind app]. rewrite Hloop. reflexivity.
Qed.

Lemma smoke_onnx_stops (w : World) (model_path : path) (lib : OnnxLib)
    (pre post : list path) (f : path) (tf : list event) (e : exn) :
  onnx w = inr lib → path_glob w model_path "*.onnx" = pre ++ f :: post →
  Forall (onnx_sound lib) pre → check_onnx_file lib f = (tf, Raise e) →
  smoke_onnx w model_path
  = (onnx_attempts pre ++ tf
       ++ [Stdout ("âŒ Smoke Test FAILED: " +:+ exn_msg e)], Ret false).
Proof.
  intros H Hfiles Hpre Hf. unfold smoke_onnx. rewrite H, Hfiles.
  pose proof (onnx_loop_stops lib pre post f tf e Hpre Hf) as Hloop.
  destruct (pre ++ f :: post) as [|mf files] eqn:E;
    [destruct pre; discriminate E|].
  unfold import_module. munfold. cbn [M_bind app]. rewrite Hloop.
  unfold smoke_failed. munfold. cbn [M_bind app].
  unfold try_except, except_Exception. rewrite <- app_assoc. reflexivity.
Qed.

(** X6. For an onnx model the smoke test first imports onnx (a failed import
    fails the test whatever the folder holds), then looks at the direct
    children of the folder named [*.onnx] and fails when there are none.
    Otherwise each file is loaded and then handed to the checker, in order;
    the first load or check that raises ends the loop (after a failed load
    the checker is not run on that file, and later files are not touched)
    and fails the test.  The test passes only if every file was loaded and
    accepted by the checker. *)
Theorem onnx_smoke_test (w : World) (model_path : path) :
  let files := path_glob w model_path "*.onnx" in
  let smoke := smoke_test_model w model_path (PyStr "onnx") in
  let header := Stdout "ğŸ”¥ Running Lightweight Smoke Test..." in
  let failed e := Stdout ("âŒ Smoke Test FAILED: " +:+ exn_msg e) in
  (∀ f, f ∈ files ↔
        ∃ entries name x stem,
          fs_lookup (fs_root w) model_path = Some (Dir entries)
          ∧ (name, x) ∈ entries ∧ name = stem +:+ ".onnx"
          ∧ f = model_path ++ [name])
  ∧ (∀ e, onnx w = inl e → smoke = ([header; failed e], Ret false))
  ∧ (∀ lib, onnx w = inr lib → files = [] →
       smoke = ([header; Stdout "âŒ No ONNX model files (.onnx) found"],
                Ret false))
  ∧ (∀ lib, onnx w = inr lib → files ≠ [] → Forall (onnx_sound lib) files →
       smoke = (header :: onnx_attempts files
                  ++ [Stdout "âœ… Smoke Test PASSED (ONNX)"], Ret true))
  ∧ (∀ lib pre f post e,
       onnx w = inr lib → files = pre ++ f :: post →
       Forall (onnx_sound lib) pre →
       onnx_load lib (path_str f) = Some e →
       smoke = (header :: onnx_attempts pre
                  ++ [Stdout ("  Checking " +:+ path_name f +:+ "...");
                      OnnxLoad (path_str f); failed e], Ret false))
  ∧ (∀ lib pre f post e,
       onnx w = inr lib → files = pre ++ f :: post →
       Forall (onnx_sound lib) pre →
       onnx_load lib (path_str f) = None →
       onnx_check_model lib (path_str f) = Some e →
       smoke = (header :: onnx_attempts pre
                  ++ [Stdout ("  Checking " +:+ path_name f +:+ "...");
                      OnnxLoad (path_str f); OnnxCheckModel (path_str f);
                      failed e], Ret false))
  ∧ (∀ t, smoke = (t, Ret true) →
       files ≠ [] ∧ ∃ lib, onnx w = inr lib ∧ Forall (onnx_sound lib) files).
Proof.
  cbv zeta. rewrite smoke_test_model_onnx.
  split; [intros f; apply (path_glob_elem w model_path ".onnx" f eq_refl)|].
  split; [intros e H; rewrite (smoke_onnx_no_lib w _ e H); reflexivity|].
  split; [intros lib H Hnil; rewrite (smoke_onnx_none w _ lib H Hnil);
          reflexivity|].
  split; [intros lib H Hne Hall; rewrite (smoke_onnx_all w _ lib H Hne Hall);
          reflexivity|].
  split.
  { intros lib pre f post e H Hf Hpre Hl.
    rewrite (smoke_onnx_stops w _ lib pre post f
               [Stdout ("  Checking " +:+ path_name f +:+ "...");
                OnnxLoad (path_str f)] e H Hf Hpre);
      [reflexivity|]. rewrite check_onnx_file_eq, Hl. reflexivity. }
  split.
  { intros lib pre f post e H Hf Hpre Hl Hc.
    rewrite (smoke_onnx_stops w _ lib pre post f
               [Stdout ("  Checking " +:+ path_name f +:+ "...");
                OnnxLoad (path_str f); OnnxCheckModel (path_str f)]
               e H Hf Hpre);
      [reflexivity|]. rewrite check_onnx_file_eq, Hl, Hc. reflexivity. }
  intros t Hpass.
  destruct (onnx w) as [e|lib] eqn:H.
  { rewrite (smoke_onnx_no_lib w _ e H) in Hpass. discriminate Hpass. }
  destruct (decide (path_glob w model_path "*.onnx" = [])) as [Hnil|Hne].
  { rewrite (smoke_onnx_none w _ lib H Hnil) in Hpass. discriminate Hpass. }
  split; [assumption|]. exists lib. split; [reflexivity|].
  destruct (first_unsound lib (path_glob w model_path "*.onnx"))
    as [Hall|(pre & f & post & e & Hf & Hpre & Hbad)]; [assumption|].
  exfalso. destruct Hbad as [Hl|[Hl Hc]].
  - rewrite (smoke_onnx_stops w _ lib pre post f
               [Stdout ("  Checking " +:+ path_name f +:+ "...");
                OnnxLoad (path_str f)] e H Hf Hpre) in Hpass;
      [discriminate Hpass|]. rewrite check_onnx_file_eq, Hl. reflexivity.
  - rewrite (smoke_onnx_stops w _ lib pre post f
               [Stdout ("  Checking " +:+ path_name f +:+ "...");
                OnnxLoad (path_str f); OnnxCheckModel (path_str f)]
               e H Hf Hpre) in Hpass;
      [discriminate Hpass|]. rewrite check_onnx_file_eq, Hl, Hc. reflexivity.
Qed.

(** ** What the Smoke Tester never does *)


Lemma only_bind (P : event → bool) {A B : Type} (m : M A) (f : A → M B) :
  only P m.1 → (∀ a, m.2 = Ret a → only P (f a).1) → only P (M_bind f m).1.
Proof.
  intros Hm Hf. rewrite M_bind_eq. destruct (m.2) as [a|c|e]; simpl; auto.
  apply Forall_app. split; [assumption|]. apply Hf. reflexivity.
Qed.

Lemma only_for_each (P : event → bool) {A : Type} (l : list A)
    (body : A → M unit) :
  (∀ x, only P (body x).1) → only P (for_each l body).1.
Proof.
  intros Hbody. induction l as [|x l IH]; [constructor|].
  cbn [for_each]. apply only_bind; auto.
Qed.

Lemma only_try_except (P : event → bool) {A : Type} (body : M A)
    (catches : exn → bool) (handler : exn → M A) :
  only P body.1 → (∀ e, only P (handler e).1) →
  only P (try_except body catches handler).1.
Proof.
  intros Hb Hh. destruct body as [t [a|c|e]]; simpl in *; try assumption.
  destruct (catches e); [|assumption].
  specialize (Hh e). destruct (handler e) as [t' o].
  apply Forall_app. auto.
Qed.

Lemma only_import (P : event → bool) {L : Type} (m : exn + L) :
  only P (import_module m).1.
Proof. destruct m; constructor. Qed.

Ltac only_step :=
  first
    [ apply only_import
    | apply only_for_each; intros ?
    | apply only_try_except; [|intros ?]
    | apply only_bind; [|intros ? _]
    | solve [repeat constructor] ].

Lemma only_smoke_pytorch (w : World) (model_path : path) :
  only torch_only (smoke_pytorch w model_path).1.
Proof.
  unfold smoke_pytorch. destruct (_ ++ _) as [|mf files];
    [repeat constructor|].
  unfold load_weights, smoke_failed. repeat only_step.
Qed.

Lemma only_smoke_tensorflow (w : World) (model_path : path) :
  only tensorflow_only (smoke_tensorflow w model_path).1.
Proof.
  rewrite smoke_tensorflow_cases. destruct (tensorflow w) as [e|lib];
    [repeat constructor|].
  destruct (path_exists w _); [|repeat constructor].
  destruct (tf_saved_model_load lib _); repeat constructor.
Qed.

Lemma only_smoke_onnx (w : World) (model_path : path) :
  only onnx_only (smoke_onnx w model_path).1.
Proof.
  unfold smoke_onnx. apply only_try_except; [|intros e; repeat constructor].
  apply only_bind; [apply only_import|intros lib _]. cbv zeta.
  destruct (path_glob w model_path "*.onnx"); [repeat constructor|].
  apply only_bind; [|intros _ _; repeat constructor].
  apply only_for_each. intros mf. rewrite check_onnx_file_eq.
  destruct (onnx_load lib _); repeat constructor.
Qed.

(** X8. Each probe keeps to its own framework: on framework pytorch the
    Smoke Tester prints and calls [torch.load] and nothing else, on
    tensorflow only [tf.saved_model.load], on onnx only [onnx.load] and the
    onnx checker; on any other value it calls no library at all. *)
Theorem probes_keep_to_their_framework (w : World) (model_path : path) :
  only torch_only (smoke_test_model w model_path (PyStr "pytorch")).1
  ∧ only tensorflow_only (smoke_test_model w model_path (PyStr "tensorflow")).1
  ∧ only onnx_only (smoke_test_model w model_path (PyStr "onnx")).1
  ∧ ∀ framework,
      py_in_strs framework VALID_FRAMEWORKS = false →
      only prints_only (smoke_test_model w model_path framework).1.
Proof.
  rewrite smoke_test_model_pytorch, smoke_test_model_tensorflow,
    smoke_test_model_onnx. cbn [fst].
  split; [constructor; [reflexivity|apply only_smoke_pytorch]|].
  split; [constructor; [reflexivity|apply only_smoke_tensorflow]|].
  split; [constructor; [reflexivity|apply only_smoke_onnx]|].
  intros framework Hout. unfold py_in_strs, VALID_FRAMEWORKS in Hout.
  cbn [existsb] in Hout. rewrite orb_false_r in Hout.
  apply orb_false_iff in Hout as [H1 Hout].
  apply orb_false_iff in Hout as [H2 H3].
  unfold smoke_test_model. rewrite H1, H2, H3.
  unfold smoke_unknown, py_str.
  destruct (py_str_result w framework); repeat constructor.
Qed.

(** ** Runs that end with status 1 *)

Lemma before_smoke_load_metadata (w : World) (model_path : path) :
  only before_smoke (load_metadata w model_path).1.
Proof.
  destruct (fs_lookup (fs_root w) (model_path ++ ["metadata.yaml"]))
    as [[content|entries]|] eqn:E.
  - destruct (yaml_safe_load w content) as [msg|v] eqn:Ey.
    + rewrite (load_metadata_invalid w _ content msg E Ey).
      repeat constructor.
    + rewrite (load_metadata_parsed w _ content v E Ey). repeat constructor.
  - destruct (load_metadata_dir w _ entries E) as [e ->]. constructor.
  - rewrite (load_metadata_missing w _ E). repeat constructor.
Qed.

Lemma before_smoke_field_errors (d : gmap string py_value)
    (items : list (string * py_type)) :
  only before_smoke (map Stdout (concat (map (spec_field_errors d) items))).
Proof.
  induction items as [|[field ty] items IH]; [constructor|].
  cbn [map concat]. rewrite map_app. apply Forall_app. split; [|assumption].
  unfold spec_field_errors. cbn [fst snd].
  destruct (d !! field) as [v|]; [destruct (isinstance v ty)|];
    repeat constructor.
Qed.

Lemma before_smoke_validate_tier_1 (w : World) (md : py_value)
    (folder : string) :
  only before_smoke (validate_tier_1 w md folder).1.
Proof.
  destruct (is_dict md) eqn:Hmd.
  - destruct md as [| | | | | |d]; try discriminate Hmd.
    rewrite validate_tier_1_dict.
    destruct (shown_model_id w d) as [e|shown]; [repeat constructor|].
    cbn [fst].
    assert (only before_smoke (map Stdout (spec_errors shown d folder))) as Hq.
    { unfold spec_errors. rewrite !map_app. repeat apply Forall_app_2.
      - apply before_smoke_field_errors.
      - unfold spec_model_id_errors. case_decide; repeat constructor.
      - unfold spec_framework_errors. case_decide; repeat constructor.
      - unfold spec_hardware_errors. case_decide; repeat constructor. }
    unfold validation_report.
    destruct (spec_errors shown d folder); [repeat constructor|].
    apply Forall_cons. split; [reflexivity|].
    apply Forall_cons. split; [reflexivity|exact Hq].
  - destruct (validate_tier_1_not_dict w md folder Hmd) as [e ->].
    repeat constructor.
Qed.

Lemma before_smoke_excludes (t : list event) :
  only before_smoke t →
  ¬ smoke_test_ran t ∧ Forall (λ ev, is_framework_call ev = false) t.
Proof.
  intros H. split.
  - intros Hin. unfold smoke_test_ran in Hin.
    pose proof (proj1 (Forall_forall _ _) H _ Hin) as Hb.
    vm_compute in Hb. discriminate Hb.
  - eapply Forall_impl; [exact H|].
    intros ev Hev. destruct ev; try reflexivity; discriminate Hev.
Qed.

(** X9. A run that ends with status 1 has not touched the model binaries:
    the Smoke Tester was not entered and no call into torch, tensorflow or
    onnx was made.  Everything such a run did was printing and, at most,
    parsing metadata.yaml. *)
Theorem status_1_leaves_binaries_untouched (w : World) (argv : list string) :
  (run w argv).2 = 1 →
  only before_smoke (run w argv).1
  ∧ ¬ smoke_test_ran (run w argv).1
  ∧ Forall (λ ev, is_framework_call ev = false) (run w argv).1.
Proof.
  intros Hst.
  assert (only before_smoke (run w argv).1) as Hb;
    [|split; [exact Hb|apply before_smoke_excludes; exact Hb]].
  rewrite run_eq in Hst |- *. cbn [fst snd] in Hst |- *.
  destruct (decide (length argv = 2%nat)) as [H|H];
    [|rewrite (main_usage w argv H); repeat constructor].
  destruct (path_exists w (model_path_of w argv)) eqn:He;
    [|rewrite (main_no_path w argv H He); repeat constructor].
  destruct (path_is_dir w (model_path_of w argv)) eqn:Hd;
    [|rewrite (main_not_dir w argv H He Hd); repeat constructor].
  pose proof (before_smoke_load_metadata w (model_path_of w argv)) as Hq1.
  destruct (main_folder_cases w argv H Hd)
    as [(t1 & E1 & Em)|[(t1 & e & E1 & Em)|(t1 & md & E1 & Hrest)]];
    rewrite E1 in Hq1; cbn [fst] in Hq1.
  - rewrite Em. cbn [fst].
    apply Forall_app. split; [repeat constructor|assumption].
  - rewrite Em. cbn [fst].
    apply Forall_app. split; [repeat constructor|assumption].
  - pose proof (before_smoke_validate_tier_1 w md
                  (path_name (model_path_of w argv))) as Hq2.
    destruct Hrest as [(t2 & e & E2 & Em)|[(t2 & E2 & Em)
                      |(t2 & s & t4 & ok & E2 & Hs & _ & E4 & Em)]];
      rewrite E2 in Hq2; cbn [fst] in Hq2.
    + rewrite Em. cbn [fst].
      repeat apply Forall_app_2; solve [assumption|repeat constructor].
    + rewrite Em. cbn [fst].
      repeat apply Forall_app_2; solve [assumption|repeat constructor].
    + rewrite Em in Hst. destruct ok; discriminate Hst.
Qed.

(** X10. When [metadata.yaml] exists but is a directory, the loader's
    existence check lets it through and opening it raises
    IsADirectoryError, which nothing catches: the run prints the banner and
    no FATAL line, parses nothing, validates nothing and ends with
    status 1. *)
Theorem declaration_directory_crashes (w : World) (argv : list string)
    (entries : list (string * node)) :
  let model_path := model_path_of w argv in
  length argv = 2%nat → path_is_dir w model_path = true →
  fs_lookup (fs_root w) (model_path ++ ["metadata.yaml"]) = Some (Dir entries) →
  ∃ e, exn_type e = IsADirectoryError
       ∧ load_metadata w model_path = ([], Raise e)
       ∧ run w argv = (banner (path_name model_path), 1).
Proof.
  cbv zeta. intros H Hd E.
  assert (∃ e, exn_type e = IsADirectoryError
               ∧ load_metadata w (model_path_of w argv) = ([], Raise e))
    as (e & Hclass & El).
  { unfold load_metadata, path_exists, open_read. rewrite E.
    eexists. split; [|reflexivity]. reflexivity. }
  exists e. split; [assumption|]. split; [assumption|].
  rewrite run_eq, (main_folder w argv H Hd). cbv zeta. rewrite El.
  cbn [fst snd exit_status]. rewrite app_nil_r. reflexivity.
Qed.

(** ** The two patterns of the pytorch probe never meet *)

Lemma list_ascii_of_string_app (a b : string) :
  list_ascii_of_string (a +:+ b)
  = list_ascii_of_string a ++ list_ascii_of_string b.
Proof. induction a as [|c a IH]; [reflexivity|]. simpl. rewrite IH. reflexivity. Qed.

Lemma pt_is_not_pth (stem stem' : string) : stem +:+ ".pt" ≠ stem' +:+ ".pth".
Proof.
  intros H. apply (f_equal list_ascii_of_string) in H.
  rewrite !list_ascii_of_string_app in H.
  change (list_ascii_of_string ".pt")
    with (list_ascii_of_string ".p" ++ ["t"%char]) in H.
  change (list_ascii_of_string ".pth")
    with (list_ascii_of_string ".pt" ++ ["h"%char]) in H.
  rewrite !app_assoc in H. apply app_inj_tail in H as [_ H]. discriminate H.
Qed.

Lemma names_unique {A : Type} (l : list (string * A)) (x y : string * A) :
  NoDup l.*1 → x ∈ l → y ∈ l → x.1 = y.1 → x = y.
Proof.
  induction l as [|a l IH]; intros Hnd Hx Hy Heq; [inversion Hx|].
  cbn in Hnd. apply NoDup_cons in Hnd as [Ha Hnd].
  apply elem_of_cons in Hx as [->|Hx]; apply elem_of_cons in Hy as [->|Hy].
  - reflexivity.
  - exfalso. apply Ha. rewrite Heq. apply list_elem_of_fmap. eauto.
  - exfalso. apply Ha. rewrite <- Heq. apply list_elem_of_fmap. eauto.
  - apply IH; assumption.
Qed.

Lemma path_glob_NoDup (w : World) (p : path) (pattern : string)
    (entries : list (string * node)) :
  fs_lookup (fs_root w) p = Some (Dir entries) → NoDup entries.*1 →
  NoDup (path_glob w p pattern).
Proof.
  intros E Hnd. unfold path_glob. rewrite E.
  apply NoDup_fmap_2_strong.
  - intros x y Hx Hy Hxy. apply list_elem_of_filter in Hx as [_ Hx].
    apply list_elem_of_filter in Hy as [_ Hy].
    apply app_inv_head in Hxy. injection Hxy as Hxy.
    exact (names_unique entries x y Hnd Hx Hy Hxy).
  - apply NoDup_filter. exact (NoDup_fmap_1 fst entries Hnd).
Qed.

(** X11. In a folder whose entries have distinct names, as every directory
    has, the list of weight files the pytorch probe builds from its two
    patterns names no file twice: no name matches both [*.pt] and [*.pth],
    so no file is loaded twice. *)
Theorem weight_files_are_listed_once (w : World) (model_path : path)
    (entries : list (string * node)) :
  fs_lookup (fs_root w) model_path = Some (Dir entries) →
  NoDup entries.*1 →
  NoDup (pytorch_files w model_path)
  ∧ ∀ f, f ∈ path_glob w model_path "*.pt" → f ∉ path_glob w model_path "*.pth".
Proof.
  intros E Hnd.
  assert (∀ f, f ∈ path_glob w model_path "*.pt" →
               f ∉ path_glob w model_path "*.pth") as Hdisj.
  { intros f H1 H2.
    apply (path_glob_elem w model_path ".pt" f eq_refl)
      in H1 as (_ & n1 & _ & stem1 & _ & _ & Hn1 & Hf1).
    apply (path_glob_elem w model_path ".pth" f eq_refl)
      in H2 as (_ & n2 & _ & stem2 & _ & _ & Hn2 & Hf2).
    rewrite Hf1 in Hf2. apply app_inv_head in Hf2. injection Hf2 as Hf2.
    rewrite Hn1, Hn2 in Hf2. exact (pt_is_not_pth stem1 stem2 Hf2). }
  split; [|exact Hdisj].
  unfold pytorch_files. apply NoDup_app.
  split; [exact (path_glob_NoDup w _ _ entries E Hnd)|].
  split; [exact Hdisj|exact (path_glob_NoDup w _ _ entries E Hnd)].
Qed.

(** ** The shape of a successful run *)

Lemma load_metadata_returns (w : World) (model_path : path)
    (t : list event) (md : py_value) :
  load_metadata w model_path = (t, Ret md) →
  ∃ content,
    fs_lookup (fs_root w) (model_path ++ ["metadata.yaml"]) = Some (File content)
    ∧ yaml_safe_load w content = inr md ∧ t = [YamlSafeLoad content].
Proof.
  intros H.
  destruct (fs_lookup (fs_root w) (model_path ++ ["metadata.yaml"]))
    as [[content|entries]|] eqn:E.
  - destruct (yaml_safe_load w content) as [msg|v] eqn:Ey.
    + rewrite (load_metadata_invalid w _ content msg E Ey) in H. discriminate H.
    + rewrite (load_metadata_parsed w _ content v E Ey) in H.
      injection H as <- <-. eauto.
  - destruct (load_metadata_dir w _ entries E) as [e He].
    rewrite He in H. discriminate H.
  - rewrite (load_metadata_missing w _ E) in H. discriminate H.
Qed.

(** X12. A run that ends with status 0 went through every stage once and in
    order: the banner, one parse of metadata.yaml that gave a mapping with a
    recognised framework, the two lines of a passed validation, the smoke
    test of that framework returning pass, and the closing line. *)
Theorem successful_run_trace (w : World) (argv : list string) :
  (run w argv).2 = 0 →
  let model_path := model_path_of w argv in
  ∃ content d s t4,
    fs_lookup (fs_root w) (model_path ++ ["metadata.yaml"]) = Some (File content)
    ∧ yaml_safe_load w content = inr (PyDict d)
    ∧ d !! "framework" = Some (PyStr s) ∧ s ∈ VALID_FRAMEWORKS
    ∧ smoke_test_model w model_path (PyStr s) = (t4, Ret true)
    ∧ (run w argv).1
      = banner (path_name model_path)
        ++ [YamlSafeLoad content;
            Stdout "ğŸ” Validating Tier-1 (Blocking) fields...";
            Stdout "âœ… Tier-1 Validation PASSED"]
        ++ t4
        ++ [Stdout (nl +:+ "âœ… ALL VALIDATIONS PASSED. Model is eligible for promotion.")].
Proof.
  intros Hst. cbv zeta. rewrite run_eq in Hst |- *. cbn [fst snd] in Hst |- *.
  destruct (decide (length argv = 2%nat)) as [H|H];
    [|rewrite (main_usage w argv H) in Hst; discriminate Hst].
  destruct (path_exists w (model_path_of w argv)) eqn:He;
    [|rewrite (main_no_path w argv H He) in Hst; discriminate Hst].
  destruct (path_is_dir w (model_path_of w argv)) eqn:Hd;
    [|rewrite (main_not_dir w argv H He Hd) in Hst; discriminate Hst].
  destruct (main_folder_cases w argv H Hd)
    as [(t1 & E1 & Em)|[(t1 & e & E1 & Em)|(t1 & md & E1 & Hrest)]];
    [rewrite Em in Hst; discriminate Hst..|].
  destruct Hrest as [(t2 & e & E2 & Em)|[(t2 & E2 & Em)
                    |(t2 & s & t4 & ok & E2 & Hs & E3 & E4 & Em)]];
    [rewrite Em in Hst; discriminate Hst..|].
  rewrite Em in Hst |- *. destruct ok; [|discriminate Hst].
  apply load_metadata_returns in E1 as (content & E & Ey & ->).
  apply validate_tier_1_returns in E2 as (d & shown & -> & _ & -> & Hok).
  symmetry in Hok. apply bool_decide_eq_true in Hok. rewrite Hok.
  exists content, d, s, t4. split; [assumption|]. split; [assumption|].
  split.
  { cbn in E3. destruct (d !! "framework") as [v|]; cbn in E3.
    - injection E3 as ->. reflexivity.
    - injection E3 as E3. subst s. exfalso. unfold VALID_FRAMEWORKS in Hs.
      apply list_elem_of_In in Hs. simpl in Hs.
      destruct Hs as [Hs|[Hs|[Hs|[]]]]; discriminate Hs. }
  split; [assumption|]. split; [assumption|]. reflexivity.
Qed.

(** ** The further properties at work on the sample worlds *)

Lemma non_mapping_metadata_crashes_witness :
  let argv := [prog; "/models/seq"] in
  let header := Stdout "ğŸ” Validating Tier-1 (Blocking) fields..." in
  length argv = 2%nat
  ∧ path_is_dir sample_world (model_path_of sample_world argv) = true
  ∧ fs_lookup sample_fs (model_path_of sample_world argv ++ ["metadata.yaml"])
    = Some (File yaml_sequence)
  ∧ sample_yaml_safe_load yaml_sequence = inr (PyList [PyStr "a"])
  ∧ is_dict (PyList [PyStr "a"]) = false
  ∧ ∃ e, (exn_type e = TypeError ∨ exn_type e = AttributeError)
         ∧ main sample_world argv
           = (banner "seq" ++ [YamlSafeLoad yaml_sequence; header], Raise e)
         ∧ (run sample_world argv).2 = 1.
Proof.
  intros argv header. repeat (split; [reflexivity|]).
  destruct (non_mapping_metadata_crashes sample_world argv yaml_sequence
              (PyList [PyStr "a"]) eq_refl eq_refl eq_refl eq_refl eq_refl)
    as (e & Hclass & _ & Hmain & Hrun).
  exists e. auto.
Defined.





Lemma printable_absent_field_is_flagged_twice_witness :
  (∅ : gmap string py_value) !! "model_id" = None
  ∧ shown_model_id sample_world ∅ = inr "None"
  ∧ (∅ : gmap string py_value) !! "framework" = None
  ∧ (∅ : gmap string py_value) !! "required_hardware" = None
  ∧ ∃ errors,
      tier_1_errors sample_world (PyDict ∅) "model_a" = ([], Ret errors)
      ∧ msg_missing "model_id" ∈ errors
      ∧ msg_model_id "None" "model_a" ∈ errors
      ∧ msg_missing "framework" ∈ errors ∧ msg_framework ∈ errors
      ∧ msg_missing "required_hardware" ∈ errors ∧ msg_hardware ∈ errors.
Proof.
  repeat (split; [reflexivity|]).
  destruct (printable_absent_field_is_flagged_twice sample_world ∅ "model_a")
    as (Hid & Hrest).
  destruct (Hid eq_refl) as (errors & He & _ & ? & ?).
  destruct (Hrest "None" eq_refl) as (errors' & He' & H1 & H2).
  rewrite He in He'. injection He' as <-.
  destruct (H1 eq_refl) as (_ & ? & ?). destruct (H2 eq_refl) as (_ & ? & ?).
  exists errors. auto 10.
Defined.

Lemma extra_fields_are_ignored_witness :
  let d := sample_metadata "model_a" "onnx" in
  ("license" ∉ tier_1_keys)
  ∧ validate_tier_1 sample_world (PyDict (<["license" := PyStr "MIT"]> d)) "model_a"
    = validate_tier_1 sample_world (PyDict d) "model_a"
  ∧ validate_tier_1 sample_world (PyDict (delete "license" d)) "model_a"
    = validate_tier_1 sample_world (PyDict d) "model_a".
Proof.
  intros d.
  assert ("license" ∉ tier_1_keys) as Hkey
    by (apply (proj1 (bool_decide_eq_false _)); vm_compute; reflexivity).
  split; [exact Hkey|].
  exact (extra_fields_are_ignored sample_world d "model_a" "license"
           (PyStr "MIT") Hkey).
Defined.

Lemma tensorflow_smoke_test_witness :
  let header := Stdout "ğŸ”¥ Running Lightweight Smoke Test..." in
  let absent := Exn ImportError "No module named 'tensorflow'" in
  let broken := Exn LibraryError "SavedModel file does not exist" in
  (* no tensorflow on the machine *)
  (tensorflow sample_world = inl absent
   ∧ smoke_test_model sample_world ["models"; "model_a"] (PyStr "tensorflow")
     = ([header; Stdout ("âŒ Smoke Test FAILED: " +:+ exn_msg absent)],
        Ret false))
  (* nothing named saved_model *)
  ∧ (tensorflow sample_world2 = inr sample_tensorflow
     ∧ path_exists sample_world2 ["m"; "tf_none"; "saved_model"] = false
     ∧ smoke_test_model sample_world2 ["m"; "tf_none"] (PyStr "tensorflow")
       = ([header; Stdout "âŒ No saved_model directory found"], Ret false))
  (* saved_model is a plain file: it exists, so it is handed to the loader *)
  ∧ (path_exists sample_world2 ["m"; "tf_bad"; "saved_model"] = true
     ∧ tf_saved_model_load sample_tensorflow "/m/tf_bad/saved_model" = Some broken
     ∧ smoke_test_model sample_world2 ["m"; "tf_bad"] (PyStr "tensorflow")
       = ([header; TfSavedModelLoad "/m/tf_bad/saved_model";
           Stdout ("âŒ Smoke Test FAILED: " +:+ exn_msg broken)], Ret false))
  (* a sound saved_model *)
  ∧ ((∃ t, smoke_test_model sample_world2 ["m"; "tf_ok"] (PyStr "tensorflow")
           = (t, Ret true))
     ∧ smoke_test_model sample_world2 ["m"; "tf_ok"] (PyStr "tensorflow")
       = ([header; TfSavedModelLoad "/m/tf_ok/saved_model";
           Stdout "âœ… Smoke Test PASSED (TensorFlow)"], Ret true)).
Proof.
  intros header absent broken.
  destruct (tensorflow_smoke_test sample_world ["models"; "model_a"])
    as (Hno & _).
  destruct (tensorflow_smoke_test sample_world2 ["m"; "tf_none"])
    as (_ & Hnone & _).
  destruct (tensorflow_smoke_test sample_world2 ["m"; "tf_bad"])
    as (_ & _ & Hbad & _).
  destruct (tensorflow_smoke_test sample_world2 ["m"; "tf_ok"])
    as (_ & _ & _ & Hiff & Htrace).
  split; [split; [reflexivity|exact (Hno absent eq_refl)]|].
  split; [split; [reflexivity|split; [reflexivity|
          exact (Hnone sample_tensorflow eq_refl eq_refl)]]|].
  split; [split; [reflexivity|split; [reflexivity|
          exact (Hbad sample_tensorflow broken eq_refl eq_refl eq_refl)]]|].
  assert (∃ t, smoke_test_model sample_world2 ["m"; "tf_ok"] (PyStr "tensorflow")
               = (t, Ret true)) as Hpass.
  { apply (proj2 Hiff). exists sample_tensorflow. repeat split; reflexivity. }
  split; [exact Hpass|]. destruct Hpass as [t Ht].
  rewrite Ht. f_equal. exact (Htrace t Ht).
Defined.

Lemma onnx_smoke_test_witness :
  let header := Stdout "ğŸ”¥ Running Lightweight Smoke Test..." in
  let failed e := Stdout ("âŒ Smoke Test FAILED: " +:+ exn_msg e) in
  let absent := Exn ImportError "No module named 'onnx'" in
  let unreadable := Exn LibraryError "Error parsing message" in
  let rejected := Exn LibraryError "Graph must be in single static assignment form" in
  let a := ["m"; "ox"; "a.onnx"] in
  let b := ["m"; "ox"; "b.onnx"] in
  let c := ["m"; "ox"; "c.onnx"] in
  let good := ["m"; "ox2"; "good.onnx"] in
  let cyclic := ["m"; "ox2"; "cyclic.onnx"] in
  (* no onnx on the machine: the files of the folder are not even counted *)
  (onnx sample_world_no_onnx = inl absent
   ∧ smoke_test_model sample_world_no_onnx ["m"; "tf_none"] (PyStr "onnx")
     = ([header; failed absent], Ret false))
  (* no .onnx file *)
  ∧ (onnx sample_world2 = inr sample_onnx2
     ∧ path_glob sample_world2 ["m"; "tf_none"] "*.onnx" = []
     ∧ smoke_test_model sample_world2 ["m"; "tf_none"] (PyStr "onnx")
       = ([header; Stdout "âŒ No ONNX model files (.onnx) found"], Ret false))
  (* one sound file *)
  ∧ (path_glob sample_world2 ["m"; "ox3"] "*.onnx" ≠ []
     ∧ Forall (onnx_sound sample_onnx2) (path_glob sample_world2 ["m"; "ox3"] "*.onnx")
     ∧ smoke_test_model sample_world2 ["m"; "ox3"] (PyStr "onnx")
       = (header :: onnx_attempts [["m"; "ox3"; "good.onnx"]]
            ++ [Stdout "âœ… Smoke Test PASSED (ONNX)"], Ret true))
  (* b.onnx cannot be loaded: it is not checked, c.onnx is not touched *)
  ∧ (path_glob sample_world2 ["m"; "ox"] "*.onnx" = [a] ++ b :: [c]
     ∧ Forall (onnx_sound sample_onnx2) [a]
     ∧ onnx_load sample_onnx2 (path_str b) = Some unreadable
     ∧ smoke_test_model sample_world2 ["m"; "ox"] (PyStr "onnx")
       = (header :: onnx_attempts [a]
            ++ [Stdout "  Checking b.onnx..."; OnnxLoad "/m/ox/b.onnx";
                failed unreadable], Ret false))
  (* cyclic.onnx loads but the checker rejects it *)
  ∧ (path_glob sample_world2 ["m"; "ox2"] "*.onnx" = [good] ++ cyclic :: []
     ∧ Forall (onnx_sound sample_onnx2) [good]
     ∧ onnx_load sample_onnx2 (path_str cyclic) = None
     ∧ onnx_check_model sample_onnx2 (path_str cyclic) = Some rejected
     ∧ smoke_test_model sample_world2 ["m"; "ox2"] (PyStr "onnx")
       = (header :: onnx_attempts [good]
            ++ [Stdout "  Checking cyclic.onnx..."; OnnxLoad "/m/ox2/cyclic.onnx";
                OnnxCheckModel "/m/ox2/cyclic.onnx"; failed rejected], Ret false))
  (* a pass accounts for every file *)
  ∧ (smoke_test_model sample_world2 ["m"; "ox3"] (PyStr "onnx")
     = (header :: onnx_attempts [["m"; "ox3"; "good.onnx"]]
          ++ [Stdout "âœ… Smoke Test PASSED (ONNX)"], Ret true)
     ∧ ∃ lib, onnx sample_world2 = inr lib
              ∧ Forall (onnx_sound lib)
                  (path_glob sample_world2 ["m"; "ox3"] "*.onnx")).
Proof.
  intros header failed absent unreadable rejected a b c good cyclic.
  destruct (onnx_smoke_test sample_world_no_onnx ["m"; "tf_none"])
    as (_ & Hno & _).
  destruct (onnx_smoke_test sample_world2 ["m"; "tf_none"])
    as (_ & _ & Hnone & _).
  destruct (onnx_smoke_test sample_world2 ["m"; "ox3"])
    as (_ & _ & _ & Hall & _ & _ & Hpass).
  destruct (onnx_smoke_test sample_world2 ["m"; "ox"])
    as (_ & _ & _ & _ & Hload & _).
  destruct (onnx_smoke_test sample_world2 ["m"; "ox2"])
    as (_ & _ & _ & _ & _ & Hcheck & _).
  assert (path_glob sample_world2 ["m"; "ox3"] "*.onnx" ≠ []) as Hne
    by (vm_compute; intros H; discriminate H).
  assert (Forall (onnx_sound sample_onnx2)
            (path_glob sample_world2 ["m"; "ox3"] "*.onnx")) as Hsound
    by (repeat constructor).
  assert (Forall (onnx_sound sample_onnx2) [a]) as Ha by (repeat constructor).
  assert (Forall (onnx_sound sample_onnx2) [good]) as Hgood
    by (repeat constructor).
  pose proof (Hall sample_onnx2 eq_refl Hne Hsound) as Hok.
  split; [split; [reflexivity|exact (Hno absent eq_refl)]|].
  split; [split; [reflexivity|split; [reflexivity|
          exact (Hnone sample_onnx2 eq_refl eq_refl)]]|].
  split; [split; [exact Hne|split; [exact Hsound|exact Hok]]|].
  split; [split; [reflexivity|split; [exact Ha|split; [reflexivity|
          exact (Hload sample_onnx2 [a] b [c] unreadable eq_refl eq_refl Ha
                   eq_refl)]]]|].
  split; [split; [reflexivity|split; [exact Hgood|split; [reflexivity|
          split; [reflexivity|
          exact (Hcheck sample_onnx2 [good] cyclic [] rejected eq_refl eq_refl
                   Hgood eq_refl eq_refl)]]]]|].
  split; [exact Hok|]. exact (proj2 (Hpass _ Hok)).
Defined.


Lemma probes_keep_to_their_framework_witness :
  py_in_strs (PyStr "jax") VALID_FRAMEWORKS = false
  ∧ only prints_only
      (smoke_test_model sample_world ["models"; "model_b"] (PyStr "jax")).1
  ∧ only torch_only
      (smoke_test_model sample_world ["models"; "model_b"] (PyStr "pytorch")).1.
Proof.
  destruct (probes_keep_to_their_framework sample_world ["models"; "model_b"])
    as (Htorch & _ & _ & Hother).
  split; [reflexivity|]. split; [exact (Hother (PyStr "jax") eq_refl)|exact Htorch].
Defined.

Lemma status_1_leaves_binaries_untouched_witness :
  let argv := [prog; "/models/mislabeled"] in
  (run sample_world argv).2 = 1
  ∧ ¬ smoke_test_ran (run sample_world argv).1
  ∧ Forall (λ ev, is_framework_call ev = false) (run sample_world argv).1.
Proof.
  intros argv.
  assert ((run sample_world argv).2 = 1) as Hst by (vm_compute; reflexivity).
  split; [exact Hst|].
  exact (proj2 (status_1_leaves_binaries_untouched sample_world argv Hst)).
Defined.

Lemma declaration_directory_crashes_witness :
  let argv := [prog; "/m/dirmeta"] in
  length argv = 2%nat
  ∧ path_is_dir sample_world2 (model_path_of sample_world2 argv) = true
  ∧ fs_lookup sample_fs2 (model_path_of sample_world2 argv ++ ["metadata.yaml"])
    = Some (Dir [])
  ∧ ∃ e, exn_type e = IsADirectoryError
         ∧ load_metadata sample_world2 ["m"; "dirmeta"] = ([], Raise e)
         ∧ run sample_world2 argv = (banner "dirmeta", 1).
Proof.
  intros argv. repeat (split; [reflexivity|]).
  exact (declaration_directory_crashes sample_world2 argv [] eq_refl eq_refl
           eq_refl).
Defined.

Lemma weight_files_are_listed_once_witness :
  let entries :=
    [("metadata.yaml", File yaml_model_b); ("a.pt", File "weights");
     ("notes.txt", File "text"); ("b.pt", File "truncated");
     ("c.pth", File "weights"); ("old", Dir [("d.pt", File "weights")])] in
  fs_lookup sample_fs ["models"; "model_b"] = Some (Dir entries)
  ∧ NoDup entries.*1
  ∧ NoDup (pytorch_files sample_world ["models"; "model_b"]).
Proof.
  intros entries.
  assert (NoDup entries.*1) as Hnd
    by (apply (proj1 (bool_decide_eq_true _)); vm_compute; reflexivity).
  split; [reflexivity|]. split; [exact Hnd|].
  exact (proj1 (weight_files_are_listed_once sample_world ["models"; "model_b"]
                  entries eq_refl Hnd)).
Defined.

Lemma successful_run_trace_witness :
  let argv := [prog; "/models/model_a"] in
  (run sample_world argv).2 = 0
  ∧ ∃ content d s t4,
      fs_lookup sample_fs ["models"; "model_a"; "metadata.yaml"]
      = Some (File content)
      ∧ sample_yaml_safe_load content = inr (PyDict d)
      ∧ d !! "framework" = Some (PyStr s) ∧ s ∈ VALID_FRAMEWORKS
      ∧ smoke_test_model sample_world ["models"; "model_a"] (PyStr s)
        = (t4, Ret true)
      ∧ (run sample_world argv).1
        = banner "model_a"
          ++ [YamlSafeLoad content;
              Stdout "ğŸ” Validating Tier-1 (Blocking) fields...";
              Stdout "âœ… Tier-1 Validation PASSED"]
          ++ t4
          ++ [Stdout (nl +:+ "âœ… ALL VALIDATIONS PASSED. Model is eligible for promotion.")].
Proof.
  intros argv.
  assert ((run sample_world argv).2 = 0) as Hst by (vm_compute; reflexivity).
  split; [exact Hst|].
  exact (successful_run_trace sample_world argv Hst).
Defined.
